(** * react-native-paper: AnimatedFAB and Drawer.Item

    A shallow embedding of the extendable floating action button
    ([AnimatedFAB]) and of the drawer item ([DrawerItem]), with the
    properties of their derived geometry, animation targets and layout
    handler.

    Conventions of the embedding.
    - A JavaScript [number] is an exact rational ([Q]) where the code's
      arithmetic is exact on the values at hand (whole widths, 56, 16, 28,
      the targets and durations of the animations): [===] is [Qeq_bool],
      [Math.ceil] is [Qceiling]. Where rounding shows, in the
      interpolated opacity of the label and in the radius and opacity of
      the icon circle's shadow, it is an IEEE-754 double ([Double]). No
      division by zero is reached on the states the component can be in
      (see [reachable_distance_pos]).
    - An optional prop is an [option]; a destructuring default
      ([visible = true]) is [withDefault].
    - [Platform.OS] and [I18nManager.isRTL] are read from the host; they are
      the fields of [Host] and are passed explicitly.
    - [Animated.timing(v, cfg).start()] is a [Command] emitted by an effect;
      [v.interpolate(cfg)] is an [InterpolationConfig] placed in a style and
      evaluated by the host ([Animated.interpolation]). *)

From Stdlib Require Import QArith Qround Lqa ZArith Lia String List Bool.
From Stdlib Require Floats Uint63.
Import ListNotations.
Open Scope Q_scope.

(** ** JavaScript values *)

Module JS.

Definition number := Q.

(** [a === b] on numbers. *)
Definition strictEq (a b : number) : bool := Qeq_bool a b.

(** [Math.ceil]. *)
Definition ceil (x : number) : number := inject_Z (Qceiling x).

(** A destructuring default: the default is taken when the prop is
    [undefined]. *)
Definition withDefault {A : Type} (d : A) (o : option A) : A :=
  match o with
  | Some v => v
  | None => d
  end.

(** Truthiness of an optional boolean ([undefined] is falsy). *)
Definition truthy (o : option bool) : bool := withDefault false o.

End JS.

(** ** The host's animation primitives *)

Module Animated.

Inductive EasingFunction := EasingLinear.

(** The configuration object given to [Animated.timing]. *)
Record TimingConfig := {
  toValue : Q;
  duration : Q;
  useNativeDriver : bool;
  easing : option EasingFunction
}.

(** The configuration object given to [value.interpolate]. *)
Record InterpolationConfig := {
  inputRange : list Q;
  outputRange : list Q
}.

(** [findRange]: the index of the segment of [inputRange] used for
    [input]; the loop runs over the inner points, from index 1. *)
Fixpoint findRange_loop (input : Q) (range : list Q) (i fuel : nat) : nat :=
  match fuel with
  | O => i
  | S fuel' =>
      if (i <? length range - 1)%nat then
        if Qle_bool input (nth i range 0) then i
        else findRange_loop input range (S i) fuel'
      else i
  end.

Definition findRange (input : Q) (range : list Q) : nat :=
  (findRange_loop input range 1 (length range) - 1)%nat.

(** Linear interpolation on one segment, with the default linear easing
    and the default [extend] extrapolation on both sides. *)
Definition interpolate
  (input inputMin inputMax outputMin outputMax : Q) : Q :=
  if Qeq_bool outputMin outputMax then outputMin
  else if Qeq_bool inputMin inputMax then
    (if Qle_bool input inputMin then outputMin else outputMax)
  else (input - inputMin) / (inputMax - inputMin)
         * (outputMax - outputMin) + outputMin.

(** The checks made when an interpolation is created: at least two
    points, a non-decreasing input range, ranges of equal length. *)
Fixpoint nonDecreasing (range : list Q) : bool :=
  match range with
  | a :: ((b :: _) as rest) => Qle_bool a b && nonDecreasing rest
  | _ => true
  end.

Definition validConfig (cfg : InterpolationConfig) : bool :=
  (2 <=? length (inputRange cfg))%nat
  && nonDecreasing (inputRange cfg)
  && (2 <=? length (outputRange cfg))%nat
  && (length (inputRange cfg) =? length (outputRange cfg))%nat.

(** The value of an interpolation node when its parent has value
    [input]; [None] when the configuration is rejected. *)
Definition interpolation (cfg : InterpolationConfig) (input : Q)
  : option Q :=
  if validConfig cfg then
    let range := findRange input (inputRange cfg) in
    Some (interpolate input
            (nth range (inputRange cfg) 0)
            (nth (S range) (inputRange cfg) 0)
            (nth range (outputRange cfg) 0)
            (nth (S range) (outputRange cfg) 0))
  else None.

End Animated.

(** ** Theme *)

Record Font := { fontFamily : string; fontWeight : string }.

Record Colors := { primary : string; text : string }.

Record Theme := {
  isV3 : bool;
  animation_scale : Q;
  roundness : Q;
  colors : option Colors;
  md : string -> string;
  fonts_medium : Font
}.

(** The host values the components read outside their props. *)
Inductive PlatformOS := ios | android | web.

Record Host := {
  Platform_OS : PlatformOS;
  I18nManager_isRTL : bool
}.

(** ** AnimatedFAB *)

Module AnimatedFAB.
Import JS.

(** ['static' | 'dynamic'] and ['left' | 'right']. *)
Inductive AnimatedFABIconMode := static | dynamic.
Inductive AnimatedFABAnimateFrom := fromLeft | fromRight.

Definition iconMode_eqb (a b : AnimatedFABIconMode) : bool :=
  match a, b with
  | static, static | dynamic, dynamic => true
  | _, _ => false
  end.

Definition animateFrom_eqb (a b : AnimatedFABAnimateFrom) : bool :=
  match a, b with
  | fromLeft, fromLeft | fromRight, fromRight => true
  | _, _ => false
  end.

Definition SIZE : Q := 56.
Definition SCALE : Q := 0.9.

Definition isAnimatedFromRight (animateFrom : AnimatedFABAnimateFrom)
  : bool := animateFrom_eqb animateFrom fromRight.

Definition isIconStatic (iconMode : AnimatedFABIconMode) : bool :=
  iconMode_eqb iconMode static.

Definition borderRadius (isV3 : bool) : Q :=
  SIZE / (if isV3 then 3.5 else 2).

Definition extendedWidth (textWidth : Q) (isV3 : bool) : Q :=
  textWidth + SIZE + borderRadius isV3.

Definition distance
  (animateFrom : AnimatedFABAnimateFrom) (textWidth : Q) (isV3 : bool)
  : Q :=
  if isAnimatedFromRight animateFrom
  then - textWidth - borderRadius isV3
  else textWidth + borderRadius isV3.

(** [propForDirection]: the array as written for the right direction, or
    its reversal. Every call site passes a fresh array literal, so the
    in-place [reverse] is observed only through its result. *)
Definition propForDirection {T : Type}
  (animateFrom : AnimatedFABAnimateFrom) (right : list T) : list T :=
  if isAnimatedFromRight animateFrom then right else rev right.

(** *** Props, state and host values *)

(** ['primary' | 'secondary' | 'tertiary' | 'surface']. *)
Inductive FABVariant :=
  variantPrimary | variantSecondary | variantTertiary | variantSurface.

(** The props that reach the derived styles and the animation targets.
    [icon], [label], the press handlers, the accessibility props,
    [testID] and [...rest] are handed to the children unchanged and are
    not carried here. [StyleProp] is the type of the [style] prop. *)
Record Props {StyleProp : Type} := {
  color : option string;
  disabled : option bool;
  visible : option bool;
  uppercase : option bool;
  iconMode : option AnimatedFABIconMode;
  animateFrom : option AnimatedFABAnimateFrom;
  extended : option bool;
  variant : option FABVariant;
  style : option StyleProp;
  theme : Theme
}.
Arguments Props : clear implicits.

(** The two [useState] cells. *)
Record Hooks := { textWidth : Q; textHeight : Q }.

(** The current numbers held by the two [Animated.Value] refs. *)
Record AnimatedValues := { visibility : Q; animFAB : Q }.

Inductive AnimatedRef := visibilityRef | animFABRef.

(** [Animated.timing(ref, config).start()]. *)
Inductive Command := TimingStart (ref : AnimatedRef)
                                 (config : Animated.TimingConfig).

Section Resolved.
Context {StyleProp : Type} (props : Props StyleProp).

(** The destructuring defaults of the component's parameter list. *)
Definition visible' : bool := withDefault true (visible props).
Definition uppercase' : bool :=
  withDefault (negb (isV3 (theme props))) (uppercase props).
Definition animateFrom' : AnimatedFABAnimateFrom :=
  withDefault fromRight (animateFrom props).
Definition extended' : bool := withDefault false (extended props).
Definition iconMode' : AnimatedFABIconMode :=
  withDefault dynamic (iconMode props).
Definition variant' : FABVariant :=
  withDefault variantPrimary (variant props).
Definition scale : Q := animation_scale (theme props).
End Resolved.

Definition isIOS (host : Host) : bool :=
  match Platform_OS host with
  | ios => true
  | _ => false
  end.

(** First render: the initial values of the refs and of the state
    cells. *)
Definition initialValues {StyleProp : Type} (props : Props StyleProp)
  : AnimatedValues :=
  {| visibility := if visible' props then 1 else 0; animFAB := 0 |}.

Definition initialHooks : Hooks := {| textWidth := 0; textHeight := 0 |}.

(** *** Effects *)

Definition visibilityEffect (visible : bool) (scale : Q) : list Command :=
  if visible then
    [TimingStart visibilityRef
       {| Animated.toValue := 1;
          Animated.duration := 200 * scale;
          Animated.useNativeDriver := true;
          Animated.easing := None |}]
  else
    [TimingStart visibilityRef
       {| Animated.toValue := 0;
          Animated.duration := 150 * scale;
          Animated.useNativeDriver := true;
          Animated.easing := None |}].

Definition animFABEffect (extended : bool) (distance scale : Q)
  : list Command :=
  [TimingStart animFABRef
     {| Animated.toValue := if negb extended then 0 else distance;
        Animated.duration := 150 * scale;
        Animated.useNativeDriver := true;
        Animated.easing := Some Animated.EasingLinear |}].

(** The values listed in the dependency arrays of the two effects (the
    refs themselves never change). *)
Record Deps := {
  dep_visible : bool;
  dep_scale : Q;
  dep_distance : Q;
  dep_extended : bool
}.

Definition depsOf {StyleProp : Type} (props : Props StyleProp)
  (hooks : Hooks) : Deps :=
  {| dep_visible := visible' props;
     dep_scale := scale props;
     dep_distance :=
       distance (animateFrom' props) (textWidth hooks)
         (isV3 (theme props));
     dep_extended := extended' props |}.

Definition visibilityDepsChanged (prev cur : Deps) : bool :=
  negb (Bool.eqb (dep_visible prev) (dep_visible cur))
  || negb (strictEq (dep_scale prev) (dep_scale cur)).

Definition animFABDepsChanged (prev cur : Deps) : bool :=
  negb (strictEq (dep_scale prev) (dep_scale cur))
  || negb (strictEq (dep_distance prev) (dep_distance cur))
  || negb (Bool.eqb (dep_extended prev) (dep_extended cur)).

(** The effects run after a render: all of them after the first one
    ([prev = None]), afterwards those with a changed dependency. *)
Definition commit (prev : option Deps) (cur : Deps) : list Command :=
  let runVisibility :=
    match prev with
    | None => true
    | Some p => visibilityDepsChanged p cur
    end in
  let runAnimFAB :=
    match prev with
    | None => true
    | Some p => animFABDepsChanged p cur
    end in
  (if runVisibility
   then visibilityEffect (dep_visible cur) (dep_scale cur) else [])
  ++ (if runAnimFAB
      then animFABEffect (dep_extended cur) (dep_distance cur)
             (dep_scale cur)
      else []).

(** *** The animation driver

    Each ref has a current number and the timing animation started last
    on it, kept until the animations are reported finished. Starting one
    replaces the one before; a timing of duration 0 writes its [toValue]
    into the ref as it starts; a finished animation leaves its [toValue]
    in the ref. *)
Record Driver := {
  current : AnimatedValues;
  runningVisibility : option Animated.TimingConfig;
  runningAnimFAB : option Animated.TimingConfig
}.

(** The number in a ref right after [start()]: the target at once when
    [duration === 0], the number it had otherwise. *)
Definition landed (config : Animated.TimingConfig) (value : Q) : Q :=
  if strictEq (Animated.duration config) 0
  then Animated.toValue config
  else value.

Definition start (driver : Driver) (cmd : Command) : Driver :=
  match cmd with
  | TimingStart visibilityRef config =>
      {| current :=
           {| visibility := landed config (visibility (current driver));
              animFAB := animFAB (current driver) |};
         runningVisibility := Some config;
         runningAnimFAB := runningAnimFAB driver |}
  | TimingStart animFABRef config =>
      {| current :=
           {| visibility := visibility (current driver);
              animFAB := landed config (animFAB (current driver)) |};
         runningVisibility := runningVisibility driver;
         runningAnimFAB := Some config |}
  end.

Definition settle (driver : Driver) : Driver :=
  {| current :=
       {| visibility :=
            match runningVisibility driver with
            | Some config => Animated.toValue config
            | None => visibility (current driver)
            end;
          animFAB :=
            match runningAnimFAB driver with
            | Some config => Animated.toValue config
            | None => animFAB (current driver)
            end |};
     runningVisibility := None;
     runningAnimFAB := None |}.

(** *** Text measurement *)

Record TextLayoutLine := { width : Q; height : Q }.
Record TextLayoutEventData := { lines : list TextLayoutLine }.

Definition setTextWidth (w : Q) (h : Hooks) : Hooks :=
  {| textWidth := w; textHeight := textHeight h |}.
Definition setTextHeight (v : Q) (h : Hooks) : Hooks :=
  {| textWidth := textWidth h; textHeight := v |}.

(** [onTextLayout]; [None] when [lines[0]] is [undefined] and reading its
    [width] throws. *)
Definition onTextLayout (isIOS : bool) (hooks : Hooks)
  (nativeEvent : TextLayoutEventData) : option Hooks :=
  match lines nativeEvent with
  | [] => None
  | line0 :: _ =>
      let currentWidth := ceil (width line0) in
      let currentHeight := ceil (height line0) in
      if negb (strictEq currentWidth (textWidth hooks))
         || negb (strictEq currentHeight (textHeight hooks))
      then
        let hooks1 := setTextHeight currentHeight hooks in
        if isIOS then Some (setTextWidth (currentWidth - 12) hooks1)
        else Some (setTextWidth currentWidth hooks1)
      else Some hooks
  end.

(** *** Life of a mounted instance *)

Record Instance {StyleProp : Type} := {
  props : Props StyleProp;
  hooks : Hooks;
  lastDeps : Deps;
  driver : Driver
}.
Arguments Instance : clear implicits.

(** The first render and its effects. *)
Definition mount {StyleProp : Type} (props : Props StyleProp)
  : Instance StyleProp :=
  let cur := depsOf props initialHooks in
  {| props := props;
     hooks := initialHooks;
     lastDeps := cur;
     driver := fold_left start (commit None cur)
                 {| current := initialValues props;
                    runningVisibility := None;
                    runningAnimFAB := None |} |}.

(** A later render, with new props or new state, and its effects. *)
Definition rerender {StyleProp : Type} (inst : Instance StyleProp)
  (props' : Props StyleProp) (hooks' : Hooks) : Instance StyleProp :=
  let cur := depsOf props' hooks' in
  {| props := props';
     hooks := hooks';
     lastDeps := cur;
     driver := fold_left start (commit (Some (lastDeps inst)) cur)
                 (driver inst) |}.

Inductive Event {StyleProp : Type} :=
| SetProps (props' : Props StyleProp)
| TextLayout (nativeEvent : TextLayoutEventData)
| AnimationsEnd.
Arguments Event : clear implicits.

(** One event of the instance's life; [None] when the handler throws. *)
Definition step {StyleProp : Type} (host : Host)
  (inst : Instance StyleProp) (ev : Event StyleProp)
  : option (Instance StyleProp) :=
  match ev with
  | SetProps props' => Some (rerender inst props' (hooks inst))
  | TextLayout nativeEvent =>
      match onTextLayout (isIOS host) (hooks inst) nativeEvent with
      | Some hooks' => Some (rerender inst (props inst) hooks')
      | None => None
      end
  | AnimationsEnd =>
      Some {| props := props inst;
              hooks := hooks inst;
              lastDeps := lastDeps inst;
              driver := settle (driver inst) |}
  end.

Fixpoint run {StyleProp : Type} (host : Host)
  (inst : Instance StyleProp) (evs : list (Event StyleProp))
  : option (Instance StyleProp) :=
  match evs with
  | [] => Some inst
  | ev :: evs' =>
      match step host inst ev with
      | Some inst' => run host inst' evs'
      | None => None
      end
  end.

(** The number a ref is heading to: the target of its running
    animation, or its current number when none runs. *)
Definition targetVisibility (d : Driver) : Q :=
  match runningVisibility d with
  | Some config => Animated.toValue config
  | None => visibility (current d)
  end.

Definition targetAnimFAB (d : Driver) : Q :=
  match runningAnimFAB d with
  | Some config => Animated.toValue config
  | None => animFAB (current d)
  end.

(** *** Derived styles *)

Inductive Side := sideLeft | sideRight.

Record LabelStyle := {
  label_side : Side;
  label_offset : Q;
  label_minWidth : Q;
  label_top : Q;
  label_opacity : Animated.InterpolationConfig;
  label_translateX : Animated.InterpolationConfig;
  label_uppercase : bool;
  label_color : string;
  label_font : Font
}.

Record Styles {StyleProp CombinedStyles : Type} := {
  surface_elevation : Q;
  surface_borderRadius : Q;
  surface_disabled : bool;
  surface_style : option StyleProp;
  wrapper_scaleY : Animated.InterpolationConfig;
  wrapper_borderRadius : Q;
  extendedShadow_width : Q;
  extendedShadow_opacity : Animated.InterpolationConfig;
  extendedShadow_borderRadius : Q;
  circleShadow_opacity : Animated.InterpolationConfig;
  circleShadow_width : Q;
  circleShadow_borderRadius : Animated.InterpolationConfig;
  inner_width : Q;
  inner_backgroundColor : string;
  inner_borderRadius : Q;
  ripple_color : string;
  ripple_borderRadius : Q;
  ripple_width : Q;
  icon_color : string;
  combinedStyles : CombinedStyles;
  label_style : LabelStyle;
  label_measured : bool;
  placeholder_rendered : bool
}.
Arguments Styles : clear implicits.

Section Render.
(** [getCombinedStyles] and [getFABColors] live in [./utils] and
    [color] is the colour library; they are taken as given. The
    [animFAB] argument of [getCombinedStyles] is the ref itself, the
    same on every render. *)
Context {StyleProp CombinedStyles : Type}.
Variable getCombinedStyles : bool -> bool -> Q -> CombinedStyles.
Variable getFABColors :
  Theme -> FABVariant -> option bool -> option string
  -> option StyleProp -> string * string.
Variable colorAlphaRgbString : string -> Q -> string.

Definition render (host : Host) (props : Props StyleProp)
  (hooks : Hooks) : Styles StyleProp CombinedStyles :=
  let theme := theme props in
  let animateFrom := animateFrom' props in
  let isIOS := isIOS host in
  let isAnimatedFromRight := isAnimatedFromRight animateFrom in
  let isIconStatic := isIconStatic (iconMode' props) in
  let isRTL := I18nManager_isRTL host in
  let isV3 := isV3 theme in
  let textWidth := textWidth hooks in
  let textHeight := textHeight hooks in
  let borderRadius := borderRadius isV3 in
  let fabColors :=
    getFABColors theme (variant' props) (disabled props)
      (color props) (style props) in
  let backgroundColor := fst fabColors in
  let foregroundColor := snd fabColors in
  let rippleColor := colorAlphaRgbString foregroundColor 0.32 in
  let extendedWidth := extendedWidth textWidth isV3 in
  let distance := distance animateFrom textWidth isV3 in
  let propForDirection := propForDirection animateFrom in
  {| surface_elevation := if isIOS then 6 else 0;
     surface_borderRadius := borderRadius;
     surface_disabled := truthy (disabled props);
     surface_style := style props;
     wrapper_scaleY :=
       {| Animated.inputRange := propForDirection [distance; 0];
          Animated.outputRange := propForDirection [SCALE; 1] |};
     wrapper_borderRadius := borderRadius;
     extendedShadow_width := extendedWidth;
     extendedShadow_opacity :=
       {| Animated.inputRange :=
            propForDirection [distance; 0.9 * distance; 0];
          Animated.outputRange := propForDirection [1; 0.15; 0] |};
     extendedShadow_borderRadius := borderRadius;
     circleShadow_opacity :=
       {| Animated.inputRange :=
            propForDirection [distance; 0.9 * distance; 0];
          Animated.outputRange := propForDirection [0; 0.85; 1] |};
     circleShadow_width := SIZE;
     circleShadow_borderRadius :=
       {| Animated.inputRange := propForDirection [distance; 0];
          Animated.outputRange :=
            propForDirection
              [SIZE / (extendedWidth / SIZE); borderRadius] |};
     inner_width := extendedWidth;
     inner_backgroundColor := backgroundColor;
     inner_borderRadius := borderRadius;
     ripple_color := rippleColor;
     ripple_borderRadius := borderRadius;
     ripple_width := extendedWidth;
     icon_color := foregroundColor;
     combinedStyles :=
       getCombinedStyles isAnimatedFromRight isIconStatic distance;
     label_style :=
       {| label_side :=
            if isAnimatedFromRight || isRTL then sideRight
            else sideLeft;
          label_offset :=
            if isIconStatic
            then textWidth - SIZE
                 + borderRadius / (if isV3 then 1 else 2)
            else borderRadius;
          label_minWidth := textWidth;
          label_top := - SIZE / 2 - textHeight / 2;
          label_opacity :=
            {| Animated.inputRange :=
                 propForDirection [distance; 0.7 * distance; 0];
               Animated.outputRange := propForDirection [1; 0; 0] |};
          label_translateX :=
            {| Animated.inputRange := propForDirection [distance; 0];
               Animated.outputRange := propForDirection [0; SIZE] |};
          label_uppercase := uppercase' props;
          label_color := foregroundColor;
          label_font := fonts_medium theme |};
     label_measured := isIOS;
     placeholder_rendered := negb isIOS |}.

End Render.

End AnimatedFAB.

(** ** Drawer.Item *)

Module DrawerItem.
Import JS.

(** The props that reach the styles; [onPress], [accessibilityLabel],
    [right], [style] and [...rest] are handed on unchanged and are not
    carried here. [IconSource] is declared in [../Icon]; it is kept
    abstract, with [toBoolean] the truthiness of one of its values (an
    empty icon name is falsy). *)
Record Props {IconSource : Type} := {
  icon : option IconSource;
  label : string;
  active : option bool;
  theme : Theme
}.
Arguments Props : clear implicits.

Record Styles := {
  container_backgroundColor : string;
  container_borderRadius : Q;
  container_v3 : bool;
  wrapper_v3 : bool;
  icon_rendered : bool;
  icon_color : option string;
  text_variant : option string;
  text_color : option string;
  text_font : Font;
  text_marginLeft : Q;
  accessibility_selected : bool
}.

Section Render.
Context {IconSource : Type}.
Variable toBoolean : IconSource -> bool.
(** [color(c).alpha(a).rgb().string()] of the colour library. *)
Variable colorAlphaRgbString : option string -> Q -> string.

Definition iconGiven (icon : option IconSource) : bool :=
  match icon with
  | Some source => toBoolean source
  | None => false
  end.

Definition backgroundColor (props : Props IconSource) : string :=
  let theme := theme props in
  if truthy (active props) then
    if isV3 theme then md theme "md.sys.color.secondary-container"
    else colorAlphaRgbString (option_map primary (colors theme)) 0.12
  else "transparent".

Definition contentColor (props : Props IconSource) : option string :=
  let theme := theme props in
  if truthy (active props) then
    if isV3 theme
    then Some (md theme "md.sys.color.on-secondary-container")
    else option_map primary (colors theme)
  else
    if isV3 theme then Some (md theme "md.sys.color.on-surface-variant")
    else Some (colorAlphaRgbString
                 (option_map text (colors theme)) 0.68).

Definition labelMargin (props : Props IconSource) : Q :=
  if iconGiven (icon props)
  then (if isV3 (theme props) then 12 else 32)
  else 0.

Definition render (props : Props IconSource) : Styles :=
  let theme := theme props in
  {| container_backgroundColor := backgroundColor props;
     container_borderRadius :=
       if isV3 theme then 28 else roundness theme;
     container_v3 := isV3 theme;
     wrapper_v3 := isV3 theme;
     icon_rendered := iconGiven (icon props);
     icon_color := contentColor props;
     text_variant :=
       if isV3 theme then Some "label-large"%string else None;
     text_color := contentColor props;
     text_font := fonts_medium theme;
     text_marginLeft := labelMargin props;
     accessibility_selected := truthy (active props) |}.

End Render.

End DrawerItem.

(** ** Style composition

    A style prop is a style object, a falsy value (what [cond && style]
    leaves when [cond] fails) or an array of style props. The host reads an
    array as [StyleSheet.flatten] does: the objects are assigned into one
    result from first to last, so a later entry overrides an earlier one
    key by key. *)

Module StyleSheet.

Inductive StyleValue :=
| VNum (q : Q)
| VStr (s : string)
| VAnimated (ref : string)
| VTransform (entries : list (string * string)).

(** The entries of an object literal, in the order written, and an
    evaluated style object. *)
Definition Entries := list (string * StyleValue).
Definition Style := list (string * StyleValue).

#[local] Set Warnings "-register-all".
Inductive StyleProp :=
| StyleFalsy
| StyleObject (entries : Entries)
| StyleArray (items : list StyleProp).

(** [result[key]]. *)
Fixpoint get (key : string) (result : Style) : option StyleValue :=
  match result with
  | [] => None
  | (k, v) :: rest => if String.eqb k key then Some v else get key rest
  end.

(** [result[key] = value]. *)
Fixpoint set (key : string) (value : StyleValue) (result : Style) : Style :=
  match result with
  | [] => [(key, value)]
  | (k, v) :: rest =>
      if String.eqb k key then (k, value) :: rest
      else (k, v) :: set key value rest
  end.

(** [for (key in computed) result[key] = computed[key]], also the object
    spread [{...result, ...computed}]. *)
Definition assign (result computed : Style) : Style :=
  fold_left (fun r entry => set (fst entry) (snd entry) r) computed result.

(** An object literal, its keys assigned in the order written. *)
Definition object (entries : Entries) : Style :=
  assign [] entries.

(** The loop of [flatten] over an array, entry by entry, each entry
    flattened by [flattenItem]. *)
Definition flattenInto (flattenItem : StyleProp -> option Style)
  (result : Style) (items : list StyleProp) : Style :=
  fold_left
    (fun r item =>
       match flattenItem item with
       | Some computed => assign r computed
       | None => r
       end)
    items result.

Fixpoint flatten (style : StyleProp) : option Style :=
  match style with
  | StyleFalsy => None
  | StyleObject entries => Some (object entries)
  | StyleArray items =>
      Some ((fix into (result : Style) (items : list StyleProp) : Style :=
               match items with
               | [] => result
               | item :: rest =>
                   into (match flatten item with
                         | Some computed => assign result computed
                         | None => result
                         end) rest
               end) [] items)
  end.

(** The value the host finds for [key] in a style prop. *)
Definition resolved (key : string) (style : StyleProp)
  : option StyleValue :=
  match flatten style with
  | Some result => get key result
  | None => None
  end.

End StyleSheet.

(** ** AnimatedFAB: the style handed to the surface *)

Module AnimatedFABSurface.
Import JS StyleSheet AnimatedFAB.

(** [styles.container] and [styles.disabled]. *)
Definition styles_container : Entries :=
  [("position"%string, VStr "absolute");
          ("backgroundColor"%string, VStr "transparent")].

Definition styles_disabled : Entries :=
  [("elevation"%string, VNum 0)].

(** The [style] array of the [Surface]; [visibility] is the animated
    ref. *)
Definition surfaceStyle (host : Host) (props : Props StyleProp)
  : StyleProp :=
  let borderRadius := borderRadius (isV3 (theme props)) in
  StyleArray
    [StyleObject
       [("opacity"%string, VAnimated "visibility");
        ("transform"%string,
         VTransform [("scale"%string, "visibility"%string)]);
        ("elevation"%string, VNum (if isIOS host then 6 else 0));
        ("borderRadius"%string, VNum borderRadius)];
     StyleObject styles_container;
     (if truthy (disabled props) then StyleObject styles_disabled
      else StyleFalsy);
     withDefault StyleFalsy (style props)].

End AnimatedFABSurface.

(** ** Drawer.Item: the container's style and the [right] callback *)

Module DrawerItemContainer.
Import JS StyleSheet DrawerItem.

(** [styles.container] and [styles.v3Container]. *)
Definition styles_container : Entries :=
  [("marginHorizontal"%string, VNum 10);
          ("marginVertical"%string, VNum 4)].

Definition styles_v3Container : Entries :=
  [("justifyContent"%string, VStr "center");
          ("height"%string, VNum 56);
          ("marginLeft"%string, VNum 12);
          ("marginRight"%string, VNum 12);
          ("marginVertical"%string, VNum 0)].

Section Render.
Context {IconSource : Type}.
Variable colorAlphaRgbString : option string -> Q -> string.
(** [black] of [styles/themes/v2/colors]. *)
Variable black : string.

(** The [style] array of the [TouchableRipple]; [style] is the [style]
    prop of the item. *)
Definition containerStyle (props : Props IconSource) (style : StyleProp)
  : StyleProp :=
  let theme := theme props in
  StyleArray
    [StyleObject styles_container;
     StyleObject
       [("backgroundColor"%string,
         VStr (backgroundColor colorAlphaRgbString props));
        ("borderRadius"%string,
         VNum (if isV3 theme then 28 else roundness theme))];
     (if isV3 theme then StyleObject styles_v3Container else StyleFalsy);
     style].

(** [contentColor || black], the colour handed to [right]. *)
Definition rightColor (props : Props IconSource) : string :=
  match contentColor colorAlphaRgbString props with
  | Some c => if String.eqb c "" then black else c
  | None => black
  end.

End Render.

End DrawerItemContainer.

(** ** Drawer.Section *)

Module DrawerSection.
Import JS StyleSheet.

Record Props := {
  title : option string;
  style : StyleProp;
  theme : Theme
}.

Definition styles_container : Entries :=
  [("marginBottom"%string, VNum 4)].
Definition styles_titleContainer : Entries :=
  [("height"%string, VNum 40);
          ("justifyContent"%string, VStr "center")].
Definition styles_v3TitleContainer : Entries :=
  [("height"%string, VNum 56)].
Definition styles_title : Entries :=
  [("marginLeft"%string, VNum 16)].
Definition styles_v3Title : Entries :=
  [("marginLeft"%string, VNum 28)].
Definition styles_divider : Entries :=
  [("marginTop"%string, VNum 4)].

(** What [title && (...)] leaves as the first child: the element, or the
    falsy [title] itself. *)
Inductive TitleChild :=
| TitleUndefined
| TitleEmptyString
| TitleBlock (containerStyle : StyleProp) (text : string)
             (textVariant : string) (textStyle : StyleProp).

Record DividerProps := {
  insets : bool;
  bold : bool;
  dividerStyle : Entries
}.

Record Rendered := {
  containerStyle : StyleProp;
  titleChild : TitleChild;
  divider : DividerProps
}.

Section Render.
(** [color(c).alpha(a).rgb().string()] of the colour library, the font
    as style entries, and the palette entry
    [tokens.md.ref.palette['neutral-variant50']]. *)
Variable colorAlphaRgbString : option string -> Q -> string.
Variable neutralVariant50 : string.

Definition titleColor (theme : Theme) : string :=
  if isV3 theme then md theme "md.sys.color.on-surface-variant"
  else colorAlphaRgbString (option_map text (colors theme)) 0.54.

Definition fontStyle (font : Font) : Entries :=
  [("fontFamily"%string, VStr (fontFamily font));
          ("fontWeight"%string, VStr (fontWeight font))].

Definition styles_v3Divider : Entries :=
  [("backgroundColor"%string, VStr neutralVariant50)].

Definition render (props : Props) : Rendered :=
  let theme := theme props in
  let isV3 := isV3 theme in
  let font := fonts_medium theme in
  {| containerStyle :=
       StyleArray [StyleObject styles_container; style props];
     titleChild :=
       match title props with
       | None => TitleUndefined
       | Some t =>
           if String.eqb t "" then TitleEmptyString
           else
             TitleBlock
               (StyleArray
                  [StyleObject styles_titleContainer;
                   (if isV3 then StyleObject styles_v3TitleContainer
                    else StyleFalsy)])
               t "title-small"
               (StyleArray
                  [StyleObject
                     (("color"%string, VStr (titleColor theme))
                      :: fontStyle font);
                   StyleObject styles_title;
                   (if isV3 then StyleObject styles_v3Title
                    else StyleFalsy)])
       end;
     divider :=
       {| insets := isV3;
          bold := isV3;
          dividerStyle :=
            if isV3 then styles_v3Divider else styles_divider |} |}.

End Render.

End DrawerSection.

(** ** The example screen's controls *)

Module CustomFABControls.
Import AnimatedFAB.

Record Controls := {
  iconMode : AnimatedFABIconMode;
  animateFrom : AnimatedFABAnimateFrom
}.

Definition initialControls : Controls :=
  {| iconMode := static; animateFrom := fromRight |}.

Inductive RadioStatus := checked | unchecked.

(** [CustomControl]: one radio button per option, checked when the option
    is the current value ([value === item]). The control is used at the
    two string unions; [eqb] is [===] on the union at hand. *)
Definition CustomControl {ControlValue : Type}
  (eqb : ControlValue -> ControlValue -> bool)
  (options : list ControlValue) (value : ControlValue)
  : list (ControlValue * RadioStatus) :=
  map (fun item => (item, if eqb value item then checked else unchecked))
    options.

(** The two functional updates given to [setControls]. *)
Definition setIconMode (newIconMode : AnimatedFABIconMode)
  (state : Controls) : Controls :=
  {| iconMode := newIconMode; animateFrom := animateFrom state |}.

Definition setAnimateFrom (newAnimateFrom : AnimatedFABAnimateFrom)
  (state : Controls) : Controls :=
  {| iconMode := iconMode state; animateFrom := newAnimateFrom |}.

Record Rendered := {
  iconModeControl : list (AnimatedFABIconMode * RadioStatus);
  animateFromControl : list (AnimatedFABAnimateFrom * RadioStatus)
}.

Definition render (controls : Controls) : Rendered :=
  {| iconModeControl :=
       CustomControl iconMode_eqb [static; dynamic] (iconMode controls);
     animateFromControl :=
       CustomControl animateFrom_eqb [fromLeft; fromRight]
         (animateFrom controls) |}.

(** The radio button of an option is pressed: [onChange(item)]. *)
Inductive Press :=
| PressIconMode (item : AnimatedFABIconMode)
| PressAnimateFrom (item : AnimatedFABAnimateFrom).

Definition onPress (press : Press) (state : Controls) : Controls :=
  match press with
  | PressIconMode item => setIconMode item state
  | PressAnimateFrom item => setAnimateFrom item state
  end.

End CustomFABControls.

(** ** The example screen *)

Module AnimatedFABExample.
Import AnimatedFAB CustomFABControls.

(** A number that may be [NaN]. *)
Inductive JSNumber := Num (q : Q) | NaN.

Record Point := { x : Q; y : Q }.
Record NativeScrollEvent := { contentOffset : option Point }.

Record State := {
  extended : bool;
  visible : bool;
  controls : Controls;
  velocity : JSNumber
}.

Definition initialState : State :=
  {| extended := true;
     visible := true;
     controls := initialControls;
     velocity := Num 0 |}.

(** [Math.floor] of a possibly [undefined] argument. *)
Definition Math_floor (v : option Q) : JSNumber :=
  match v with
  | Some q => Num (inject_Z (Qfloor q))
  | None => NaN
  end.

(** [a ?? b]: [b] only when [a] is [null] or [undefined]. *)
Definition nullish {A : Type} (a : option A) (b : A) : A :=
  match a with
  | Some v => v
  | None => b
  end.

(** [n <= 0]. *)
Definition leZero (n : JSNumber) : bool :=
  match n with
  | Num q => Qle_bool q 0
  | NaN => false
  end.

Definition onScroll (isIOS : bool) (state : State)
  (nativeEvent : option NativeScrollEvent) : State :=
  let offsetY :=
    match nativeEvent with
    | Some e => option_map y (contentOffset e)
    | None => None
    end in
  let currentScrollPosition := nullish (Some (Math_floor offsetY)) (Num 0) in
  if negb isIOS then
    {| extended := extended state;
       visible := visible state;
       controls := controls state;
       velocity := currentScrollPosition |}
  else
    {| extended := leZero currentScrollPosition;
       visible := visible state;
       controls := controls state;
       velocity := velocity state |}.

(** The star of a row is pressed: [setVisible(!visible)]. *)
Definition onIconPress (state : State) : State :=
  {| extended := extended state;
     visible := negb (visible state);
     controls := controls state;
     velocity := velocity state |}.

(** The props handed to [CustomFAB]. *)
Record CustomFABProps := {
  fab_visible : bool;
  fab_animatedValue : JSNumber;
  fab_extended : bool;
  fab_label : string;
  fab_animateFrom : AnimatedFABAnimateFrom;
  fab_iconMode : AnimatedFABIconMode
}.

Definition fabProps (state : State) : CustomFABProps :=
  {| fab_visible := visible state;
     fab_animatedValue := velocity state;
     fab_extended := extended state;
     fab_label := "New Message";
     fab_animateFrom := animateFrom (controls state);
     fab_iconMode := iconMode (controls state) |}.

End AnimatedFABExample.

(** ** Numbers as the code computes them

    Where a property depends on how a product or a quotient is rounded, a
    JavaScript [number] is an IEEE-754 double ([float]): [===] is [eqb],
    [a >= b] is [leb b a], the literals [0.7], [0.9], [0.15], [0.85] and
    [0.32] are the doubles nearest to them. The host's interpolation and
    the styles of the button are given again over doubles; the stored
    widths are whole numbers ([ofZ]). *)

Module Double.
Import PrimFloat.
#[local] Open Scope float_scope.
#[local] Set Warnings "-inexact-float".

(** A whole number as a double, exact below [2^53]. *)
Definition ofZ (z : Z) : float :=
  if (z <? 0)%Z then - of_uint63 (Uint63.of_Z (- z))
  else of_uint63 (Uint63.of_Z z).

Record InterpolationConfig := {
  inputRange : list float;
  outputRange : list float
}.

(** [findRange]; reading past the end of the array gives [undefined],
    which compares like [NaN]. *)
Fixpoint findRange_loop (input : float) (range : list float) (i fuel : nat)
  : nat :=
  match fuel with
  | O => i
  | S fuel' =>
      if (i <? length range - 1)%nat then
        if leb input (nth i range nan) then i
        else findRange_loop input range (S i) fuel'
      else i
  end.

Definition findRange (input : float) (range : list float) : nat :=
  (findRange_loop input range 1 (length range) - 1)%nat.

(** [interpolate] with the default linear easing and the default [extend]
    extrapolation, under which the two tests [result < inputMin] and
    [result > inputMax] change nothing. *)
Definition interpolate
  (input inputMin inputMax outputMin outputMax : float) : float :=
  let result := input in
  if eqb outputMin outputMax then outputMin
  else if eqb inputMin inputMax then
    (if leb input inputMin then outputMin else outputMax)
  else
    let result :=
      if eqb inputMin neg_infinity then - result
      else if eqb inputMax infinity then result - inputMin
      else (result - inputMin) / (inputMax - inputMin) in
    if eqb outputMin neg_infinity then - result
    else if eqb outputMax infinity then result + outputMin
    else result * (outputMax - outputMin) + outputMin.

(** [checkValidInputRange] and [checkInfiniteRange]. *)
Fixpoint nonDecreasing (arr : list float) : bool :=
  match arr with
  | a :: ((b :: _) as rest) => leb a b && nonDecreasing rest
  | _ => true
  end.

Definition checkValidInputRange (arr : list float) : bool :=
  (2 <=? length arr)%nat && nonDecreasing arr.

Definition checkInfiniteRange (arr : list float) : bool :=
  (2 <=? length arr)%nat
  && negb ((length arr =? 2)%nat
           && eqb (nth 0 arr nan) neg_infinity
           && eqb (nth 1 arr nan) infinity).

Definition validConfig (cfg : InterpolationConfig) : bool :=
  checkInfiniteRange (outputRange cfg)
  && checkInfiniteRange (inputRange cfg)
  && checkValidInputRange (inputRange cfg)
  && (length (inputRange cfg) =? length (outputRange cfg))%nat.

Definition interpolation (cfg : InterpolationConfig) (input : float)
  : option float :=
  if validConfig cfg then
    let range := findRange input (inputRange cfg) in
    Some (interpolate input
            (nth range (inputRange cfg) nan)
            (nth (S range) (inputRange cfg) nan)
            (nth range (outputRange cfg) nan)
            (nth (S range) (outputRange cfg) nan))
  else None.

(** *** The button over doubles *)

Definition SIZE : float := 56.
Definition SCALE : float := 0.9.

Definition borderRadius (isV3 : bool) : float :=
  SIZE / (if isV3 then 3.5 else 2).

Definition extendedWidth (textWidth : float) (isV3 : bool) : float :=
  textWidth + SIZE + borderRadius isV3.

Definition distance
  (animateFrom : AnimatedFAB.AnimatedFABAnimateFrom) (textWidth : float)
  (isV3 : bool) : float :=
  if AnimatedFAB.isAnimatedFromRight animateFrom
  then - textWidth - borderRadius isV3
  else textWidth + borderRadius isV3.

Record Hooks := { textWidth : float; textHeight : float }.

Record LabelStyle := {
  label_side : AnimatedFAB.Side;
  label_offset : float;
  label_minWidth : float;
  label_top : float;
  label_opacity : InterpolationConfig;
  label_translateX : InterpolationConfig;
  label_uppercase : bool;
  label_color : string;
  label_font : Font
}.

Record Styles {StyleProp CombinedStyles : Type} := {
  surface_elevation : float;
  surface_borderRadius : float;
  surface_disabled : bool;
  surface_style : option StyleProp;
  wrapper_scaleY : InterpolationConfig;
  wrapper_borderRadius : float;
  extendedShadow_width : float;
  extendedShadow_opacity : InterpolationConfig;
  extendedShadow_borderRadius : float;
  circleShadow_opacity : InterpolationConfig;
  circleShadow_width : float;
  circleShadow_borderRadius : InterpolationConfig;
  inner_width : float;
  inner_backgroundColor : string;
  inner_borderRadius : float;
  ripple_color : string;
  ripple_borderRadius : float;
  ripple_width : float;
  icon_color : string;
  combinedStyles : CombinedStyles;
  label_style : LabelStyle;
  label_measured : bool;
  placeholder_rendered : bool
}.
Arguments Styles : clear implicits.

Section Render.
Context {StyleProp CombinedStyles : Type}.
Variable getCombinedStyles : bool -> bool -> float -> CombinedStyles.
Variable getFABColors :
  Theme -> AnimatedFAB.FABVariant -> option bool -> option string
  -> option StyleProp -> string * string.
Variable colorAlphaRgbString : string -> float -> string.

Definition render (host : Host) (props : AnimatedFAB.Props StyleProp)
  (hooks : Hooks) : Styles StyleProp CombinedStyles :=
  let theme := AnimatedFAB.theme props in
  let animateFrom := AnimatedFAB.animateFrom' props in
  let isIOS := AnimatedFAB.isIOS host in
  let isAnimatedFromRight := AnimatedFAB.isAnimatedFromRight animateFrom in
  let isIconStatic :=
    AnimatedFAB.isIconStatic (AnimatedFAB.iconMode' props) in
  let isRTL := I18nManager_isRTL host in
  let isV3 := isV3 theme in
  let textWidth := textWidth hooks in
  let textHeight := textHeight hooks in
  let borderRadius := borderRadius isV3 in
  let fabColors :=
    getFABColors theme (AnimatedFAB.variant' props)
      (AnimatedFAB.disabled props) (AnimatedFAB.color props)
      (AnimatedFAB.style props) in
  let backgroundColor := fst fabColors in
  let foregroundColor := snd fabColors in
  let rippleColor := colorAlphaRgbString foregroundColor 0.32 in
  let extendedWidth := extendedWidth textWidth isV3 in
  let distance := distance animateFrom textWidth isV3 in
  let propForDirection := AnimatedFAB.propForDirection animateFrom in
  {| surface_elevation := if isIOS then 6 else 0;
     surface_borderRadius := borderRadius;
     surface_disabled := JS.truthy (AnimatedFAB.disabled props);
     surface_style := AnimatedFAB.style props;
     wrapper_scaleY :=
       {| inputRange := propForDirection [distance; 0];
          outputRange := propForDirection [SCALE; 1] |};
     wrapper_borderRadius := borderRadius;
     extendedShadow_width := extendedWidth;
     extendedShadow_opacity :=
       {| inputRange := propForDirection [distance; 0.9 * distance; 0];
          outputRange := propForDirection [1; 0.15; 0] |};
     extendedShadow_borderRadius := borderRadius;
     circleShadow_opacity :=
       {| inputRange := propForDirection [distance; 0.9 * distance; 0];
          outputRange := propForDirection [0; 0.85; 1] |};
     circleShadow_width := SIZE;
     circleShadow_borderRadius :=
       {| inputRange := propForDirection [distance; 0];
          outputRange :=
            propForDirection
              [SIZE / (extendedWidth / SIZE); borderRadius] |};
     inner_width := extendedWidth;
     inner_backgroundColor := backgroundColor;
     inner_borderRadius := borderRadius;
     ripple_color := rippleColor;
     ripple_borderRadius := borderRadius;
     ripple_width := extendedWidth;
     icon_color := foregroundColor;
     combinedStyles :=
       getCombinedStyles isAnimatedFromRight isIconStatic distance;
     label_style :=
       {| label_side :=
            if isAnimatedFromRight || isRTL then AnimatedFAB.sideRight
            else AnimatedFAB.sideLeft;
          label_offset :=
            if isIconStatic
            then textWidth - SIZE
                 + borderRadius / (if isV3 then 1 else 2)
            else borderRadius;
          label_minWidth := textWidth;
          label_top := - SIZE / 2 - textHeight / 2;
          label_opacity :=
            {| inputRange := propForDirection [distance; 0.7 * distance; 0];
               outputRange := propForDirection [1; 0; 0] |};
          label_translateX :=
            {| inputRange := propForDirection [distance; 0];
               outputRange := propForDirection [0; SIZE] |};
          label_uppercase := AnimatedFAB.uppercase' props;
          label_color := foregroundColor;
          label_font := fonts_medium theme |};
     label_measured := isIOS;
     placeholder_rendered := negb isIOS |}.

End Render.

(** *** Vocabulary of the properties over doubles *)

(** [x] lies on the segment with ends [a] and [b], ends included. *)
Definition segment (a b x : float) : bool :=
  if leb a b then leb a x && leb x b else leb b x && leb x a.

(** [a] and [b] differ by at most [2^-47], one unit in the last place of
    a double between 32 and 64. *)
Definition close (a b : float) : bool := leb (abs (a - b)) 0x1p-47.

(** The interpolation has exactly the value [v] at [x]. *)
Definition hasValue (cfg : InterpolationConfig) (x v : float) : bool :=
  match interpolation cfg x with
  | Some r => Leibniz.eqb r v
  | None => false
  end.

(** [f] holds of the [n] whole numbers from [lo] on. *)
Fixpoint holdsFrom (f : Z -> bool) (lo : Z) (n : nat) : bool :=
  match n with
  | O => true
  | S n' => if f lo then holdsFrom f (lo + 1)%Z n' else false
  end.

(** The text widths covered: the whole numbers from -12 to 100000. *)
Definition widthCovered (tw : Z) : Prop := (-12 <= tw <= 100000)%Z.

(** A button animating from [a] under a theme of version [v3], with
    stand-ins for the helpers, to evaluate the interpolations of a
    render. *)
Definition plainProps (a : AnimatedFAB.AnimatedFABAnimateFrom) (v3 : bool)
  : AnimatedFAB.Props unit :=
  {| AnimatedFAB.color := None;
     AnimatedFAB.disabled := None;
     AnimatedFAB.visible := None;
     AnimatedFAB.uppercase := None;
     AnimatedFAB.iconMode := None;
     AnimatedFAB.animateFrom := Some a;
     AnimatedFAB.extended := None;
     AnimatedFAB.variant := None;
     AnimatedFAB.style := None;
     AnimatedFAB.theme :=
       {| isV3 := v3;
          animation_scale := 1%Q;
          roundness := 4%Q;
          colors := None;
          md := fun key => key;
          fonts_medium := {| fontFamily := "sans-serif-medium";
                             fontWeight := "normal" |} |} |}.

Definition plainRender (a : AnimatedFAB.AnimatedFABAnimateFrom) (v3 : bool)
  (width : float) : Styles unit unit :=
  render (fun _ _ _ => tt)
    (fun _ _ _ _ _ => ("#6200ee"%string, "#ffffff"%string))
    (fun c _ => c)
    {| Platform_OS := ios; I18nManager_isRTL := false |}
    (plainProps a v3)
    {| textWidth := width; textHeight := 0 |}.

(** The checks run over the widths covered: the label's opacity at
    [distance], at [0.7 * distance] and at 0, with the order of the three
    points. *)
Definition labelEnds (a : AnimatedFAB.AnimatedFABAnimateFrom) (v3 : bool)
  (tw : Z) : bool :=
  let d := distance a (ofZ tw) v3 in
  let m := 0.7 * d in
  let cfg := label_opacity (label_style (plainRender a v3 (ofZ tw))) in
  validConfig cfg
  && hasValue cfg d 1 && hasValue cfg m 0 && hasValue cfg 0 0
  && (if AnimatedFAB.isAnimatedFromRight a
      then ltb m 0 && leb m 0
      else ltb 0 m && negb (leb m 0)).

(** The icon circle's shadow at the two ends: the radius exactly
    [borderRadius] at 0, within [2^-47] of [SIZE / (extendedWidth / SIZE)]
    at [distance] and exactly that from the right; the opacity exactly 1
    at 0 and 0 at [distance]. *)
Definition circleEnds (a : AnimatedFAB.AnimatedFABAnimateFrom) (v3 : bool)
  (tw : Z) : bool :=
  let d := distance a (ofZ tw) v3 in
  let w := extendedWidth (ofZ tw) v3 in
  let s := plainRender a v3 (ofZ tw) in
  let target := SIZE / (w / SIZE) in
  hasValue (circleShadow_borderRadius s) 0 (borderRadius v3)
  && match interpolation (circleShadow_borderRadius s) d with
     | Some r =>
         close r target
         && (if AnimatedFAB.isAnimatedFromRight a
             then Leibniz.eqb r target else true)
     | None => false
     end
  && close target (56 * 56 / w)
  && hasValue (circleShadow_opacity s) 0 1
  && hasValue (circleShadow_opacity s) d 0.

Definition bothThemesAndDirections
  (check : AnimatedFAB.AnimatedFABAnimateFrom -> bool -> Z -> bool) (tw : Z)
  : bool :=
  check AnimatedFAB.fromRight true tw
  && check AnimatedFAB.fromRight false tw
  && check AnimatedFAB.fromLeft true tw
  && check AnimatedFAB.fromLeft false tw.

End Double.

(** * Vocabulary of the properties *)

Module Spec.
Import JS Animated AnimatedFAB.

(** An interpolation node has value [v] at [input], up to equality of
    rationals. *)
Definition evaluatesTo (cfg : InterpolationConfig) (input v : Q) : Prop :=
  exists r, interpolation cfg input = Some r /\ r == v.

(** [x] lies on the segment with ends [a] and [b], in either order. *)
Definition between (a b x : Q) : Prop :=
  (a <= x /\ x <= b) \/ (b <= x /\ x <= a).

(** The state cells after any number of layout events whose measured
    widths are not negative. *)
Inductive reachable (isIOS : bool) : Hooks -> Prop :=
| reachable_initial : reachable isIOS initialHooks
| reachable_layout (h h' : Hooks) (ev : TextLayoutEventData) :
    reachable isIOS h ->
    Forall (fun line => 0 <= width line) (lines ev) ->
    onTextLayout isIOS h ev = Some h' ->
    reachable isIOS h'.

(** What the last effects left running agrees with the dependencies of the
    last render. *)
Definition visibilityConsistent (deps : Deps) (d : Driver) : Prop :=
  targetVisibility d == (if dep_visible deps then 1 else 0)
  /\ match runningVisibility d with
     | Some config =>
         duration config
         == (if dep_visible deps then 200 else 150) * dep_scale deps
         /\ useNativeDriver config = true
     | None => True
     end.

Definition animFABConsistent (deps : Deps) (d : Driver) : Prop :=
  targetAnimFAB d
  == (if dep_extended deps then dep_distance deps else 0)
  /\ match runningAnimFAB d with
     | Some config =>
         duration config == 150 * dep_scale deps
         /\ easing config = Some EasingLinear
         /\ useNativeDriver config = true
     | None => True
     end.

Definition consistent {S : Type} (inst : Instance S) : Prop :=
  lastDeps inst = depsOf (props inst) (hooks inst)
  /\ visibilityConsistent (lastDeps inst) (driver inst)
  /\ animFABConsistent (lastDeps inst) (driver inst).

(** Two evaluations are given the same [visible], [extended],
    [animateFrom], [textWidth] and [theme]. *)
Definition sameInputs {S : Type} (p1 p2 : Props S) (h1 h2 : Hooks) : Prop :=
  visible p1 = visible p2
  /\ extended p1 = extended p2
  /\ animateFrom p1 = animateFrom p2
  /\ textWidth h1 = textWidth h2
  /\ theme p1 = theme p2.

(** What else the derived styles read: the other props after defaults,
    the measured height, and the two host values as the component uses
    them. *)
Definition sameStyleInputs {S : Type} (host1 host2 : Host)
  (p1 p2 : Props S) (h1 h2 : Hooks) : Prop :=
  iconMode' p1 = iconMode' p2
  /\ uppercase' p1 = uppercase' p2
  /\ variant' p1 = variant' p2
  /\ disabled p1 = disabled p2
  /\ color p1 = color p2
  /\ style p1 = style p2
  /\ textHeight h1 = textHeight h2
  /\ isIOS host1 = isIOS host2
  /\ I18nManager_isRTL host1 = I18nManager_isRTL host2.

(** The styles that are interpolations of [animFAB], with the widths and
    the radius they are built from. *)
Definition animatedStyles {S C : Type} (s : Styles S C) :=
  (wrapper_scaleY s, extendedShadow_opacity s, circleShadow_opacity s,
   circleShadow_borderRadius s, label_opacity (label_style s),
   label_translateX (label_style s), extendedShadow_width s,
   surface_borderRadius s).

End Spec.

(** * Sample inputs *)

Module Examples.
Import AnimatedFAB.

Definition sampleTheme : Theme :=
  {| isV3 := true;
     animation_scale := 1;
     roundness := 4;
     colors := Some {| primary := "#6200ee"; text := "#000000" |};
     md := fun key => key;
     fonts_medium := {| fontFamily := "sans-serif-medium";
                        fontWeight := "normal" |} |}.

Definition sampleProps : Props unit :=
  {| color := None;
     disabled := None;
     visible := None;
     uppercase := None;
     iconMode := None;
     animateFrom := None;
     extended := Some true;
     variant := None;
     style := None;
     theme := sampleTheme |}.

Definition staticIconProps : Props unit :=
  {| color := None;
     disabled := None;
     visible := None;
     uppercase := None;
     iconMode := Some static;
     animateFrom := None;
     extended := Some true;
     variant := None;
     style := None;
     theme := sampleTheme |}.

Definition sampleHooks : Hooks := {| textWidth := 100; textHeight := 20 |}.
Definition tallerHooks : Hooks := {| textWidth := 100; textHeight := 24 |}.

Definition iosHost : Host :=
  {| Platform_OS := ios; I18nManager_isRTL := false |}.
Definition androidHost : Host :=
  {| Platform_OS := android; I18nManager_isRTL := false |}.

(** Stand-ins for the helpers of [./utils] and for the colour library. *)
Definition sampleCombinedStyles
  (isAnimatedFromRight isIconStatic : bool) (distance : Q)
  : bool * bool * Q :=
  (isAnimatedFromRight, isIconStatic, distance).

Definition sampleFABColors
  (t : Theme) (v : FABVariant) (disabled : option bool)
  (customColor : option string) (style : option unit) : string * string :=
  ("#6200ee"%string, "#ffffff"%string).

Definition sampleColorAlpha (c : string) (alpha : Q) : string := c.

Definition sampleRender :=
  render sampleCombinedStyles sampleFABColors sampleColorAlpha.

(** A life of the sample button: mounted extended, its label measured at
    100.2 by 19.5, then collapsed and hidden, the animations left to
    finish. *)
Definition collapsedProps : Props unit :=
  {| color := None;
     disabled := None;
     visible := Some false;
     uppercase := None;
     iconMode := None;
     animateFrom := Some fromLeft;
     extended := Some false;
     variant := None;
     style := None;
     theme := sampleTheme |}.

Definition sampleEvents : list (Event unit) :=
  [TextLayout {| lines := [{| width := 100.2; height := 19.5 |}] |};
   SetProps collapsedProps;
   AnimationsEnd].

Definition sampleFinal : Instance unit :=
  Eval vm_compute in
    match run iosHost (mount sampleProps) sampleEvents with
    | Some inst => inst
    | None => mount sampleProps
    end.

Definition nonEmpty (name : string) : bool :=
  negb (String.eqb name "").

Definition sampleColorOf (c : option string) (alpha : Q) : string :=
  match c with
  | Some s => s
  | None => "#000000"
  end.

Definition starItem : DrawerItem.Props string :=
  {| DrawerItem.icon := Some "star"%string;
     DrawerItem.label := "First Item";
     DrawerItem.active := None;
     DrawerItem.theme := sampleTheme |}.

End Examples.

(** * Vocabulary of the further properties *)

Module Lifecycle.
Import JS Animated AnimatedFAB Spec.

(** A layout event reports no negative width. *)
Definition measurable {S : Type} (ev : Event S) : Prop :=
  match ev with
  | TextLayout nativeEvent =>
      Forall (fun line => 0 <= width line) (lines nativeEvent)
  | _ => True
  end.

(** The two dependency records hold the same values, numbers compared as
    the effects compare them. *)
Definition sameDeps (a b : Deps) : Prop :=
  dep_visible a = dep_visible b
  /\ dep_scale a == dep_scale b
  /\ dep_distance a == dep_distance b
  /\ dep_extended a = dep_extended b.

(** The props handed in last: those of the last [SetProps], or the props
    of the mount when there was none. *)
Definition lastProps {S : Type} (p0 : Props S) (evs : list (Event S))
  : Props S :=
  fold_left (fun p ev => match ev with
                         | SetProps p' => p'
                         | _ => p
                         end) evs p0.

(** The state cells after the layout events of [evs], handled in order
    from [h0]; [None] when one of them throws. *)
Definition measureFrom {S : Type} (isIOS : bool) (h0 : option Hooks)
  (evs : list (Event S)) : option Hooks :=
  fold_left (fun h ev => match h, ev with
                         | Some cells, TextLayout nativeEvent =>
                             onTextLayout isIOS cells nativeEvent
                         | _, _ => h
                         end) evs h0.

Definition measuredHooks {S : Type} (isIOS : bool) (evs : list (Event S))
  : option Hooks :=
  measureFrom isIOS (Some initialHooks) evs.




(** The six interpolations of [animFAB] placed in the styles. *)
Definition interpolations {S C : Type} (s : Styles S C)
  : list InterpolationConfig :=
  [wrapper_scaleY s; extendedShadow_opacity s; circleShadow_opacity s;
   circleShadow_borderRadius s; label_opacity (label_style s);
   label_translateX (label_style s)].

End Lifecycle.

Module ExampleSpec.
Import AnimatedFAB CustomFABControls.

(** The options of a control whose radio button is checked. *)
Definition checkedOptions {A : Type} (control : list (A * RadioStatus))
  : list A :=
  map fst
    (filter (fun entry => match snd entry with
                          | checked => true
                          | unchecked => false
                          end) control).

(** The option pressed last in each control, or [start] when none was. *)
Definition lastIconMode (start : AnimatedFABIconMode) (presses : list Press)
  : AnimatedFABIconMode :=
  fold_left (fun acc press => match press with
                              | PressIconMode item => item
                              | PressAnimateFrom _ => acc
                              end) presses start.

Definition lastAnimateFrom (start : AnimatedFABAnimateFrom)
  (presses : list Press) : AnimatedFABAnimateFrom :=
  fold_left (fun acc press => match press with
                              | PressIconMode _ => acc
                              | PressAnimateFrom item => item
                              end) presses start.

(** The controls after a sequence of presses. *)
Definition afterPresses (start : Controls) (presses : list Press)
  : Controls :=
  fold_left (fun state press => onPress press state) presses start.

End ExampleSpec.

(** * Further sample inputs *)

Module MoreExamples.
Import AnimatedFAB Examples.

Definition sampleLayout : TextLayoutEventData :=
  {| lines := [{| width := 100.2; height := 19.5 |}] |}.

Definition widerLayout : TextLayoutEventData :=
  {| lines := [{| width := 112; height := 19.5 |}] |}.

Definition narrowerLayout : TextLayoutEventData :=
  {| lines := [{| width := 100; height := 19.5 |}] |}.

(** The sample button after its label was measured. *)
Definition sampleMeasured : Instance unit :=
  Eval vm_compute in
    match step iosHost (mount sampleProps) (TextLayout sampleLayout) with
    | Some inst => inst
    | None => mount sampleProps
    end.

Definition sampleLife : list (Event unit) :=
  [TextLayout sampleLayout; SetProps collapsedProps].

(** A theme whose animations last twice as long, and a button under it:
    hidden and collapsed, then shown and extended, animating from the
    left. *)
Definition slowTheme : Theme :=
  {| isV3 := true;
     animation_scale := 2;
     roundness := 4;
     colors := Some {| primary := "#6200ee"; text := "#000000" |};
     md := fun key => key;
     fonts_medium := {| fontFamily := "sans-serif-medium";
                        fontWeight := "normal" |} |}.

Definition hiddenCollapsed : Props unit :=
  {| color := None;
     disabled := None;
     visible := Some false;
     uppercase := None;
     iconMode := None;
     animateFrom := Some fromLeft;
     extended := Some false;
     variant := None;
     style := None;
     theme := slowTheme |}.

Definition shownExpanded : Props unit :=
  {| color := None;
     disabled := None;
     visible := None;
     uppercase := None;
     iconMode := None;
     animateFrom := Some fromLeft;
     extended := Some true;
     variant := None;
     style := None;
     theme := slowTheme |}.

Definition expandingLife : list (Event unit) :=
  [TextLayout sampleLayout; SetProps shownExpanded].

Definition hidingLife : list (Event unit) :=
  [TextLayout sampleLayout; SetProps hiddenCollapsed].


Definition shownSettled : Instance unit :=
  Eval vm_compute in
    match run iosHost (mount hiddenCollapsed)
            (expandingLife ++ [AnimationsEnd]) with
    | Some inst => inst
    | None => mount hiddenCollapsed
    end.

(** The button while it is being shown and extended, and while it is
    being hidden and collapsed. *)
Definition sampleExpanding : Instance unit :=
  Eval vm_compute in
    match run iosHost (mount hiddenCollapsed) expandingLife with
    | Some inst => inst
    | None => mount hiddenCollapsed
    end.

Definition sampleHiding : Instance unit :=
  Eval vm_compute in
    match run iosHost (mount shownExpanded) hidingLife with
    | Some inst => inst
    | None => mount shownExpanded
    end.

End MoreExamples.

(** * Properties *)

(** ** Interpolation on two and three points *)

Module AnimatedFacts.
Import Animated Spec.

Lemma Qle_bool_true (a b : Q) : a <= b -> Qle_bool a b = true.
Proof. intro H. now apply Qle_bool_iff. Qed.

Lemma Qle_bool_false (a b : Q) : b < a -> Qle_bool a b = false.
Proof.
  intro H. destruct (Qle_bool a b) eqn:E; [|reflexivity].
  apply Qle_bool_iff in E. lra.
Qed.

Lemma Qeq_bool_true (a b : Q) : a == b -> Qeq_bool a b = true.
Proof. intro H. now apply Qeq_bool_iff. Qed.

Lemma Qeq_bool_false (a b : Q) : ~ a == b -> Qeq_bool a b = false.
Proof.
  intro H. destruct (Qeq_bool a b) eqn:E; [|reflexivity].
  apply Qeq_bool_iff in E. contradiction.
Qed.

(** The loop of [findRange] leaves through its own test: any fuel that
    covers the points left gives the same index. *)
Lemma findRange_loop_fuel (input : Q) (range : list Q) :
  forall fuel1 fuel2 i : nat,
    (length range - 1 - i <= fuel1)%nat ->
    (length range - 1 - i <= fuel2)%nat ->
    findRange_loop input range i fuel1 = findRange_loop input range i fuel2.
Proof.
  induction fuel1 as [|fuel1 IH]; intros fuel2 i H1 H2.
  - assert (Hexit : (i <? length range - 1)%nat = false)
      by (apply Nat.ltb_ge; lia).
    destruct fuel2; simpl; [reflexivity|]. now rewrite Hexit.
  - simpl. destruct (i <? length range - 1)%nat eqn:Hi.
    + apply Nat.ltb_lt in Hi.
      destruct fuel2 as [|fuel2]; [lia|]. simpl.
      rewrite (proj2 (Nat.ltb_lt _ _) Hi).
      destruct (Qle_bool input (nth i range 0)); [reflexivity|].
      apply IH; lia.
    + destruct fuel2; simpl; [reflexivity|]. now rewrite Hi.
Qed.

Lemma findRange_fuel (input : Q) (range : list Q) (fuel : nat) :
  (length range <= fuel)%nat ->
  findRange input range = (findRange_loop input range 1 fuel - 1)%nat.
Proof.
  intro H. unfold findRange. f_equal. apply findRange_loop_fuel; lia.
Qed.

Lemma interpolate_flat (x a b u : Q) : interpolate x a b u u = u.
Proof.
  unfold interpolate. now rewrite Qeq_bool_true by reflexivity.
Qed.

Lemma interpolate_at_min (a b u v : Q) :
  ~ a == b -> interpolate a a b u v == u.
Proof.
  intro Hab. unfold interpolate.
  destruct (Qeq_bool u v) eqn:Euv; [reflexivity|].
  rewrite (Qeq_bool_false a b Hab).
  field. lra.
Qed.

Lemma interpolate_at_max (a b u v : Q) :
  ~ a == b -> interpolate b a b u v == v.
Proof.
  intro Hab. unfold interpolate.
  destruct (Qeq_bool u v) eqn:Euv.
  - now apply Qeq_bool_iff in Euv.
  - rewrite (Qeq_bool_false a b Hab). field. lra.
Qed.

Lemma interpolation_two (a b u v x : Q) :
  a <= b ->
  interpolation {| inputRange := [a; b]; outputRange := [u; v] |} x
  = Some (interpolate x a b u v).
Proof.
  intro Hab. unfold interpolation, validConfig. simpl.
  now rewrite (Qle_bool_true a b Hab).
Qed.

Lemma interpolation_three_low (a b c u v w x : Q) :
  a <= b -> b <= c -> x <= b ->
  interpolation
    {| inputRange := [a; b; c]; outputRange := [u; v; w] |} x
  = Some (interpolate x a b u v).
Proof.
  intros Hab Hbc Hx. unfold interpolation, validConfig, findRange. simpl.
  now rewrite (Qle_bool_true a b Hab), (Qle_bool_true b c Hbc),
    (Qle_bool_true x b Hx).
Qed.

Lemma interpolation_three_high (a b c u v w x : Q) :
  a <= b -> b <= c -> b < x ->
  interpolation
    {| inputRange := [a; b; c]; outputRange := [u; v; w] |} x
  = Some (interpolate x b c v w).
Proof.
  intros Hab Hbc Hx. unfold interpolation, validConfig, findRange. simpl.
  now rewrite (Qle_bool_true a b Hab), (Qle_bool_true b c Hbc),
    (Qle_bool_false x b Hx).
Qed.

End AnimatedFacts.

(** ** AnimatedFAB: geometry *)

Module AnimatedFABFacts.
Import JS Animated AnimatedFAB Spec AnimatedFacts.

Lemma borderRadius_value (isV3 : bool) :
  borderRadius isV3 == (if isV3 then 16 else 28).
Proof. destruct isV3; reflexivity. Qed.

Lemma borderRadius_bounds (isV3 : bool) :
  16 <= borderRadius isV3 /\ borderRadius isV3 <= 28.
Proof. rewrite borderRadius_value. destruct isV3; lra. Qed.

Lemma isAnimatedFromRight_iff (a : AnimatedFABAnimateFrom) :
  isAnimatedFromRight a = true <-> a = fromRight.
Proof. destruct a; simpl; split; congruence. Qed.

Lemma isIconStatic_iff (m : AnimatedFABIconMode) :
  isIconStatic m = true <-> m = static.
Proof. destruct m; simpl; split; congruence. Qed.

(** C3: there are exactly two animation directions and exactly two icon
    modes; the component tells them apart, and an omitted [animateFrom]
    is [right], an omitted [iconMode] is [dynamic]. *)
Theorem directions_and_icon_modes :
  (forall a : AnimatedFABAnimateFrom, a = fromLeft \/ a = fromRight)
  /\ fromLeft <> fromRight
  /\ (forall m : AnimatedFABIconMode, m = static \/ m = dynamic)
  /\ static <> dynamic
  /\ (forall (S : Type) (p : Props S),
         animateFrom' p
         = match animateFrom p with Some a => a | None => fromRight end)
  /\ (forall (S : Type) (p : Props S),
         iconMode' p
         = match iconMode p with Some m => m | None => dynamic end)
  /\ isAnimatedFromRight fromRight = true
  /\ isAnimatedFromRight fromLeft = false
  /\ isIconStatic static = true
  /\ isIconStatic dynamic = false.
Proof.
  repeat split; try discriminate.
  - intros []; auto.
  - intros []; auto.
Qed.

(** C4: the extended width is [textWidth + 56 + borderRadius], with
    [borderRadius] equal to [56 / 3.5] (that is 16) under a v3 theme and
    to [56 / 2] (that is 28) otherwise, for every [textWidth]. *)
Theorem extendedWidth_formula (textWidth : Q) (v3 : bool) :
  extendedWidth textWidth v3 = textWidth + 56 + borderRadius v3
  /\ borderRadius v3 = (if v3 then 56 / 3.5 else 56 / 2)
  /\ borderRadius v3 == (if v3 then 16 else 28)
  /\ extendedWidth textWidth v3 == textWidth + (if v3 then 72 else 84).
Proof.
  repeat split.
  - now destruct v3.
  - apply borderRadius_value.
  - unfold extendedWidth, SIZE. rewrite borderRadius_value.
    destruct v3; lra.
Qed.

(** C5: [propForDirection] is the identity for [right] and the reversal
    for [left]; the distance for [right] is the negation of the distance
    for [left], [-(textWidth + borderRadius)] against
    [textWidth + borderRadius]. *)
Theorem direction_reversal_symmetry :
  (forall (T : Type) (xs : list T),
      propForDirection fromRight xs = xs
      /\ propForDirection fromLeft xs = rev xs)
  /\ (forall (textWidth : Q) (v3 : bool),
         distance fromRight textWidth v3
         == - distance fromLeft textWidth v3
         /\ distance fromRight textWidth v3
            == - (textWidth + borderRadius v3)
         /\ distance fromLeft textWidth v3
            = textWidth + borderRadius v3).
Proof.
  split.
  - intros T xs. split; reflexivity.
  - intros tw v3. unfold distance. simpl. repeat split; lra.
Qed.

End AnimatedFABFacts.


(** ** AnimatedFAB: the states the measured text can put it in *)

Module Reachability.
Import JS Animated AnimatedFAB Spec AnimatedFacts AnimatedFABFacts.

Lemma ceil_nonneg (x : Q) : 0 <= x -> 0 <= ceil x.
Proof.
  intro Hx. unfold ceil. pose proof (Qle_ceiling x) as H. lra.
Qed.

Lemma reachable_textWidth (isIOS : bool) (h : Hooks) :
  reachable isIOS h -> -12 <= textWidth h.
Proof.
  induction 1 as [|h h' ev Hr IH Hpos Hev].
  - simpl. lra.
  - unfold onTextLayout in Hev.
    destruct (lines ev) as [|line0 rest]; [discriminate|].
    inversion Hpos as [|? ? Hw _]; subst.
    apply ceil_nonneg in Hw.
    destruct (negb _ || negb _) in Hev.
    + destruct isIOS; inversion Hev; subst; simpl; lra.
    + inversion Hev; subst. exact IH.
Qed.

Lemma reachable_distance_pos (isIOS v3 : bool) (h : Hooks) :
  reachable isIOS h -> 0 < textWidth h + borderRadius v3.
Proof.
  intro Hr. apply reachable_textWidth in Hr.
  pose proof (borderRadius_bounds v3). lra.
Qed.

End Reachability.


(** ** AnimatedFAB: interpolated styles at the two ends of the animation *)

Module InterpolatedStyles.
Import JS Animated AnimatedFAB Spec AnimatedFacts AnimatedFABFacts.

Lemma interpolate_reaches_max (x a b u v : Q) :
  x == b -> ~ a == b -> interpolate x a b u v == v.
Proof.
  intros Hx Hab. unfold interpolate.
  destruct (Qeq_bool u v) eqn:Euv.
  - now apply Qeq_bool_iff in Euv.
  - rewrite (Qeq_bool_false a b Hab). rewrite Hx. field. lra.
Qed.

Lemma distance_right_neg (textWidth : Q) (v3 : bool) :
  0 < textWidth + borderRadius v3 -> distance fromRight textWidth v3 < 0.
Proof. unfold distance. simpl. lra. Qed.

Lemma distance_left_pos (textWidth : Q) (v3 : bool) :
  0 < textWidth + borderRadius v3 -> 0 < distance fromLeft textWidth v3.
Proof. unfold distance. simpl. lra. Qed.

(** Three points, the outputs rising or falling towards the extended end
    [d]: the value at [d], at [0], and on the flat part. *)
Lemma three_points_right (d k u v w : Q) :
  d < 0 -> 0 < k -> k < 1 ->
  let cfg := {| inputRange := [d; k * d; 0]; outputRange := [u; v; w] |} in
  evaluatesTo cfg d u
  /\ evaluatesTo cfg 0 w
  /\ (v == w -> forall x, k * d <= x -> evaluatesTo cfg x w).
Proof.
  intros Hd Hk0 Hk1 cfg.
  assert (Hkd : d < k * d) by nra.
  assert (Hkd0 : k * d < 0) by nra.
  repeat split.
  - exists (interpolate d d (k * d) u v). split.
    + apply interpolation_three_low; lra.
    + apply interpolate_at_min. lra.
  - exists (interpolate 0 (k * d) 0 v w). split.
    + apply interpolation_three_high; lra.
    + apply interpolate_at_max. lra.
  - intros Hvw x Hx.
    destruct (Qlt_le_dec (k * d) x) as [Hlt|Hle].
    + exists (interpolate x (k * d) 0 v w). split.
      * apply interpolation_three_high; lra.
      * unfold interpolate. now rewrite (Qeq_bool_true v w Hvw).
    + exists (interpolate x d (k * d) u v). split.
      * apply interpolation_three_low; lra.
      * rewrite <- Hvw. apply interpolate_reaches_max; lra.
Qed.

Lemma three_points_left (d k u v w : Q) :
  0 < d -> 0 < k -> k < 1 ->
  let cfg := {| inputRange := rev [d; k * d; 0];
                outputRange := rev [u; v; w] |} in
  evaluatesTo cfg d u
  /\ evaluatesTo cfg 0 w
  /\ (v == w -> forall x, x <= k * d -> evaluatesTo cfg x w).
Proof.
  intros Hd Hk0 Hk1 cfg. subst cfg. simpl.
  assert (Hkd : k * d < d) by nra.
  assert (Hkd0 : 0 < k * d) by nra.
  repeat split.
  - exists (interpolate d (k * d) d v u). split.
    + apply interpolation_three_high; lra.
    + apply interpolate_at_max. lra.
  - exists (interpolate 0 0 (k * d) w v). split.
    + apply interpolation_three_low; lra.
    + apply interpolate_at_min. lra.
  - intros Hvw x Hx.
    exists (interpolate x 0 (k * d) w v). split.
    + apply interpolation_three_low; lra.
    + unfold interpolate. rewrite Qeq_bool_true; [reflexivity|].
      now symmetry.
Qed.

Lemma two_points_right (d u v : Q) :
  d < 0 ->
  let cfg := {| inputRange := [d; 0]; outputRange := [u; v] |} in
  evaluatesTo cfg d u /\ evaluatesTo cfg 0 v.
Proof.
  intros Hd cfg. split.
  - exists (interpolate d d 0 u v). split.
    + apply interpolation_two. lra.
    + apply interpolate_at_min. lra.
  - exists (interpolate 0 d 0 u v). split.
    + apply interpolation_two. lra.
    + apply interpolate_at_max. lra.
Qed.

Lemma two_points_left (d u v : Q) :
  0 < d ->
  let cfg := {| inputRange := rev [d; 0]; outputRange := rev [u; v] |} in
  evaluatesTo cfg d u /\ evaluatesTo cfg 0 v.
Proof.
  intros Hd cfg. subst cfg. simpl. split.
  - exists (interpolate d 0 d v u). split.
    + apply interpolation_two. lra.
    + apply interpolate_at_max. lra.
  - exists (interpolate 0 0 d v u). split.
    + apply interpolation_two. lra.
    + apply interpolate_at_min. lra.
Qed.

End InterpolatedStyles.


(** ** AnimatedFAB: the two timed animations *)

Module Effects.
Import JS Animated AnimatedFAB Spec AnimatedFacts.

Lemma visibilityEffect_single (visible : bool) (scale : Q) :
  visibilityEffect visible scale
  = [TimingStart visibilityRef
       {| toValue := if visible then 1 else 0;
          duration := (if visible then 200 else 150) * scale;
          useNativeDriver := true;
          easing := None |}].
Proof. now destruct visible. Qed.

Lemma animFABEffect_single (extended : bool) (distance scale : Q) :
  animFABEffect extended distance scale
  = [TimingStart animFABRef
       {| toValue := if extended then distance else 0;
          duration := 150 * scale;
          useNativeDriver := true;
          easing := Some EasingLinear |}].
Proof. now destruct extended. Qed.

Lemma strictEq_true (a b : Q) : strictEq a b = true -> a == b.
Proof. unfold strictEq. apply Qeq_bool_eq. Qed.

Lemma commit_consistent (prev : option Deps) (cur : Deps) (d : Driver) :
  match prev with
  | Some p => visibilityConsistent p d /\ animFABConsistent p d
  | None => True
  end ->
  visibilityConsistent cur (fold_left start (commit prev cur) d)
  /\ animFABConsistent cur (fold_left start (commit prev cur) d).
Proof.
  intro Hprev. unfold commit.
  rewrite visibilityEffect_single, animFABEffect_single.
  destruct prev as [p|].
  - destruct Hprev as [[Hv Hvr] [Ha Har]].
    unfold visibilityDepsChanged, animFABDepsChanged.
    destruct (Bool.eqb (dep_visible p) (dep_visible cur)) eqn:Evis;
      destruct (strictEq (dep_scale p) (dep_scale cur)) eqn:Escale;
      destruct (strictEq (dep_distance p) (dep_distance cur)) eqn:Edist;
      destruct (Bool.eqb (dep_extended p) (dep_extended cur)) eqn:Eext;
      try apply eqb_prop in Evis; try apply eqb_prop in Eext;
      try apply strictEq_true in Escale; try apply strictEq_true in Edist;
      simpl; unfold visibilityConsistent, animFABConsistent,
        targetVisibility, targetAnimFAB in *; simpl;
      repeat split; try reflexivity;
      try (rewrite <- Evis); try (rewrite <- Eext);
      try (destruct (runningVisibility d)); try (destruct (runningAnimFAB d));
      try tauto;
      try (destruct (dep_visible p)); try (destruct (dep_extended p));
      try lra; intuition lra.
  - simpl. unfold visibilityConsistent, animFABConsistent,
      targetVisibility, targetAnimFAB. simpl.
    repeat split; reflexivity.
Qed.

Lemma settle_consistent (deps : Deps) (d : Driver) :
  visibilityConsistent deps d -> animFABConsistent deps d ->
  visibilityConsistent deps (settle d)
  /\ animFABConsistent deps (settle d).
Proof.
  unfold visibilityConsistent, animFABConsistent, targetVisibility,
    targetAnimFAB, settle. simpl.
  intros [Hv _] [Ha _]. repeat split; assumption.
Qed.

Lemma mount_consistent {S : Type} (p : Props S) : consistent (mount p).
Proof.
  unfold consistent, mount. cbn [props hooks lastDeps driver].
  split; [reflexivity|]. now apply commit_consistent.
Qed.

Lemma step_consistent {S : Type} (host : Host) (inst inst' : Instance S)
  (ev : Event S) :
  consistent inst -> step host inst ev = Some inst' -> consistent inst'.
Proof.
  intros (Hdeps & Hv & Ha) Hstep. destruct ev as [p'|ne|]; simpl in Hstep.
  - inversion Hstep; subst. unfold consistent, rerender.
    cbn [props hooks lastDeps driver].
    split; [reflexivity|]. now apply commit_consistent.
  - destruct (onTextLayout _ _ _) as [h'|]; [|discriminate].
    inversion Hstep; subst. unfold consistent, rerender.
    cbn [props hooks lastDeps driver].
    split; [reflexivity|]. now apply commit_consistent.
  - inversion Hstep; subst. unfold consistent.
    cbn [props hooks lastDeps driver].
    split; [assumption|]. now apply settle_consistent.
Qed.

Lemma run_consistent {S : Type} (host : Host) (evs : list (Event S)) :
  forall inst inst' : Instance S,
    consistent inst -> run host inst evs = Some inst' -> consistent inst'.
Proof.
  induction evs as [|ev evs IH]; intros inst inst' Hc Hrun; simpl in Hrun.
  - now inversion Hrun; subst.
  - destruct (step host inst ev) as [inst1|] eqn:Hstep; [|discriminate].
    eapply IH; [|exact Hrun]. eapply step_consistent; eassumption.
Qed.

End Effects.


Module Tracking.
Import JS Animated AnimatedFacts AnimatedFAB Spec Lifecycle Effects.

Lemma measureFrom_none {S : Type} (isIOS : bool) (evs : list (Event S)) :
  measureFrom isIOS None evs = None.
Proof.
  unfold measureFrom. induction evs as [|ev evs IH]; simpl; [reflexivity|].
  exact IH.
Qed.

(** A run keeps the props handed in last and the cells the handler
    left. *)
Lemma run_tracks {S : Type} (host : Host) (evs : list (Event S)) :
  forall inst inst' : Instance S,
    run host inst evs = Some inst' ->
    props inst' = lastProps (props inst) evs
    /\ measureFrom (isIOS host) (Some (hooks inst)) evs = Some (hooks inst').
Proof.
  induction evs as [|ev evs IH]; intros inst inst' Hrun; simpl in Hrun.
  - inversion Hrun; subst. split; reflexivity.
  - destruct (step host inst ev) as [inst1|] eqn:Hstep; [|discriminate].
    destruct (IH _ _ Hrun) as [Hp Hh].
    unfold lastProps, measureFrom in *. simpl.
    destruct ev as [p'|nativeEvent|]; simpl in Hstep.
    + inversion Hstep; subst. simpl in *. split; assumption.
    + destruct (onTextLayout _ _ _) as [h'|]; [|discriminate].
      inversion Hstep; subst. simpl in *. split; assumption.
    + inversion Hstep; subst. simpl in *. split; assumption.
Qed.



End Tracking.


Module Transitions.
Import JS Animated AnimatedFacts AnimatedFAB Spec Lifecycle Effects Tracking.



End Transitions.


(** ** AnimatedFAB: text measurement *)

Module TextMeasurement.
Import JS Animated AnimatedFAB.

(** C9: [onTextLayout] leaves both cells unchanged when the rounded-up
    width and height of the first line equal the stored ones; otherwise it
    stores the rounded-up height, and the rounded-up width less 12 on iOS,
    the rounded-up width itself elsewhere; so on iOS the stored width is 12
    less than the width it was compared with. *)
Theorem onTextLayout_frame
  (isIOS : bool) (h : Hooks) (line0 : TextLayoutLine)
  (rest : list TextLayoutLine) :
  let currentWidth := ceil (width line0) in
  let currentHeight := ceil (height line0) in
  let result := onTextLayout isIOS h {| lines := line0 :: rest |} in
  (currentWidth == textWidth h /\ currentHeight == textHeight h ->
   result = Some h)
  /\ (~ (currentWidth == textWidth h /\ currentHeight == textHeight h) ->
      result
      = Some {| textWidth :=
                  if isIOS then currentWidth - 12 else currentWidth;
                textHeight := currentHeight |}
      /\ (isIOS = true ->
          forall h', result = Some h' -> currentWidth - textWidth h' == 12)).
Proof.
  intros currentWidth currentHeight result. subst result.
  unfold onTextLayout, strictEq. cbn [lines].
  fold currentWidth currentHeight.
  assert (Hstored : forall h',
             Some {| textWidth := currentWidth - 12;
                     textHeight := currentHeight |} = Some h' ->
             currentWidth - textWidth h' == 12).
  { intros h' Heq. inversion Heq; subst. simpl. lra. }
  destruct (Qeq_bool currentWidth (textWidth h)) eqn:Ew;
    destruct (Qeq_bool currentHeight (textHeight h)) eqn:Eh; simpl;
    try apply Qeq_bool_iff in Ew; try apply Qeq_bool_iff in Eh.
  - split; [reflexivity|]. intro Hn. exfalso. apply Hn. now split.
  - split.
    + intros [_ Hh]. apply Qeq_bool_iff in Hh. congruence.
    + intros _. destruct isIOS; (split; [reflexivity|]);
        [intros _; exact Hstored | discriminate].
  - split.
    + intros [Hw _]. apply Qeq_bool_iff in Hw. congruence.
    + intros _. destruct isIOS; (split; [reflexivity|]);
        [intros _; exact Hstored | discriminate].
  - split.
    + intros [Hw _]. apply Qeq_bool_iff in Hw. congruence.
    + intros _. destruct isIOS; (split; [reflexivity|]);
        [intros _; exact Hstored | discriminate].
Qed.

End TextMeasurement.


(** ** Drawer.Item *)

Module DrawerItemFacts.
Import JS DrawerItem.

Section WithIcon.
Context {IconSource : Type}.
Variable toBoolean : IconSource -> bool.
Variable colorAlphaRgbString : option string -> Q -> string.

(** C10: the label margin of a drawer item is 0 without an icon, 12 with
    an icon under a v3 theme and 32 with an icon under another theme; the
    background colour is ['transparent'] when the item is not active. An
    icon counts as given when the [icon] prop is truthy, as the component
    tests it. *)
Theorem drawerItem_margin_and_background (p : Props IconSource) :
  let styles := render toBoolean colorAlphaRgbString p in
  (icon p = None -> text_marginLeft styles = 0)
  /\ (iconGiven toBoolean (icon p) = false -> text_marginLeft styles = 0)
  /\ (iconGiven toBoolean (icon p) = true ->
      text_marginLeft styles = (if isV3 (theme p) then 12 else 32))
  /\ (active p <> Some true ->
      container_backgroundColor styles = "transparent"%string).
Proof.
  intro styles. subst styles.
  cbn [render text_marginLeft container_backgroundColor].
  unfold labelMargin, backgroundColor.
  repeat split.
  - intro Hicon. now rewrite Hicon.
  - intro Hicon. now rewrite Hicon.
  - intro Hicon. now rewrite Hicon.
  - intro Hactive. destruct (active p) as [[|]|]; simpl;
      [congruence | reflexivity | reflexivity].
Qed.

End WithIcon.

End DrawerItemFacts.


(** ** AnimatedFAB: what the targets and the styles depend on *)

Module Determinism.
Import JS Animated AnimatedFAB Spec Examples.

(** C8 as stated fails: three pairs of evaluations with the same
    [visible], [extended], [animateFrom], [textWidth] and [theme] and
    different derived styles, by another [iconMode] (label offset), another
    measured height (label top), another platform (elevation). *)
Lemma styles_not_determined_by_target_inputs :
  (sameInputs sampleProps staticIconProps sampleHooks sampleHooks
   /\ sampleRender iosHost sampleProps sampleHooks
      <> sampleRender iosHost staticIconProps sampleHooks)
  /\ (sameInputs sampleProps sampleProps sampleHooks tallerHooks
      /\ sampleRender iosHost sampleProps sampleHooks
         <> sampleRender iosHost sampleProps tallerHooks)
  /\ (sameInputs sampleProps sampleProps sampleHooks sampleHooks
      /\ sampleRender iosHost sampleProps sampleHooks
         <> sampleRender androidHost sampleProps sampleHooks).
Proof.
  repeat split.
  - intro H.
    apply (f_equal (fun s => label_offset (label_style s))) in H.
    vm_compute in H. discriminate H.
  - intro H.
    apply (f_equal (fun s => label_top (label_style s))) in H.
    vm_compute in H. discriminate H.
  - intro H. apply (f_equal surface_elevation) in H.
    vm_compute in H. discriminate H.
Qed.

Section WithUtils.
Context {StyleProp CombinedStyles : Type}.
Variable getCombinedStyles : bool -> bool -> Q -> CombinedStyles.
Variable getFABColors :
  Theme -> FABVariant -> option bool -> option string
  -> option StyleProp -> string * string.
Variable colorAlphaRgbString : string -> Q -> string.

Abbreviation render :=
  (render getCombinedStyles getFABColors colorAlphaRgbString).

(** C8, amended: two evaluations with the same [visible], [extended],
    [animateFrom], [textWidth] and [theme] have the same dependencies,
    hence start the same animations with the same targets, and the same
    interpolated styles, widths and radius; the whole of their derived
    styles is the same when they also agree on [iconMode], [uppercase],
    [variant], [disabled], [color], [style], the measured height, the
    platform being iOS or not, and the reading direction. *)
Theorem targets_determined_by_inputs
  (host1 host2 : Host) (p1 p2 : Props StyleProp) (h1 h2 : Hooks) :
  sameInputs p1 p2 h1 h2 ->
  depsOf p1 h1 = depsOf p2 h2
  /\ (forall prev : option Deps,
         commit prev (depsOf p1 h1) = commit prev (depsOf p2 h2))
  /\ visibilityEffect (visible' p1) (scale p1)
     = visibilityEffect (visible' p2) (scale p2)
  /\ animFABEffect (extended' p1)
       (distance (animateFrom' p1) (textWidth h1) (isV3 (theme p1)))
       (scale p1)
     = animFABEffect (extended' p2)
         (distance (animateFrom' p2) (textWidth h2) (isV3 (theme p2)))
         (scale p2)
  /\ animatedStyles (render host1 p1 h1)
     = animatedStyles (render host2 p2 h2)
  /\ (sameStyleInputs host1 host2 p1 p2 h1 h2 ->
      render host1 p1 h1 = render host2 p2 h2).
Proof.
  intros (Hvis & Hext & Hfrom & Hwidth & Htheme).
  assert (Hdeps : depsOf p1 h1 = depsOf p2 h2).
  { unfold depsOf, visible', extended', animateFrom', scale.
    now rewrite Hvis, Hext, Hfrom, Hwidth, Htheme. }
  split; [exact Hdeps|]. split; [intro prev; now rewrite Hdeps|].
  split.
  { unfold visible', scale. now rewrite Hvis, Htheme. }
  split.
  { unfold extended', animateFrom', scale.
    now rewrite Hext, Hfrom, Hwidth, Htheme. }
  split.
  { unfold animatedStyles, AnimatedFAB.render, animateFrom'.
    cbn [wrapper_scaleY extendedShadow_opacity circleShadow_opacity
         circleShadow_borderRadius label_style label_opacity
         label_translateX extendedShadow_width surface_borderRadius].
    now rewrite Hfrom, Hwidth, Htheme. }
  intros (Hmode & Hupper & Hvariant & Hdis & Hcolor & Hstyle & Hheight
          & Hios & Hrtl).
  unfold AnimatedFAB.render.
  assert (Hfrom' : animateFrom' p1 = animateFrom' p2)
    by (unfold animateFrom'; now rewrite Hfrom).
  now rewrite Hmode, Hupper, Hvariant, Hdis, Hcolor, Hstyle, Hheight,
    Hios, Hrtl, Hfrom', Hwidth, Htheme.
Qed.

End WithUtils.

End Determinism.


(** ** The theorems at sample inputs *)

Module Samples.
Import JS Animated AnimatedFAB Spec Lifecycle Examples MoreExamples.
Import AnimatedFacts.
Import InterpolatedStyles Determinism.

(** Stored widths no measurement produces. With [textWidth = -16] under a
    v3 theme the distance is 0 and the label's opacity at [animFAB = 0] is
    1; with [textWidth = -20] the input range of the right direction
    decreases and the interpolation is rejected. *)
Example zero_distance_label_opaque :
  evaluatesTo
    (label_opacity
       (label_style
          (sampleRender iosHost sampleProps
             {| textWidth := -16; textHeight := 20 |})))
    0 1.
Proof.
  eexists. split; [vm_compute; reflexivity|]. vm_compute. reflexivity.
Qed.

Example negative_distance_rejected :
  interpolation
    (label_opacity
       (label_style
          (sampleRender iosHost sampleProps
             {| textWidth := -20; textHeight := 20 |})))
    0
  = None.
Proof. vm_compute. reflexivity. Qed.

(** An empty icon name is falsy: the drawer item renders no icon and
    leaves no margin for one. *)
Example empty_icon_name_no_margin :
  DrawerItem.text_marginLeft
    (DrawerItem.render nonEmpty sampleColorOf
       {| DrawerItem.icon := Some ""%string;
          DrawerItem.label := "First Item";
          DrawerItem.active := None;
          DrawerItem.theme := sampleTheme |})
  = 0.
Proof. reflexivity. Qed.

Lemma sampleFinal_run :
  run iosHost (mount sampleProps) sampleEvents = Some sampleFinal.
Proof. vm_compute. reflexivity. Qed.

(** While the sample button is being shown and extended, [animFAB] heads
    to 105 over 300 and [visibility] to 1 over 400; while it is being
    hidden and collapsed, [visibility] heads to 0 over 300. *)
Example sample_timings :
  runningAnimFAB (driver sampleExpanding)
  = Some {| toValue := 89 + borderRadius true;
            duration := 150 * 2;
            useNativeDriver := true;
            easing := Some EasingLinear |}
  /\ targetAnimFAB (driver sampleExpanding) == 105
  /\ runningVisibility (driver sampleExpanding)
     = Some {| toValue := 1;
               duration := 200 * 2;
               useNativeDriver := true;
               easing := None |}
  /\ runningVisibility (driver sampleHiding)
     = Some {| toValue := 0;
               duration := 150 * 2;
               useNativeDriver := true;
               easing := None |}
  /\ visibility (current (driver sampleHiding)) = 1.
Proof. repeat split. Qed.



Lemma targets_determined_by_inputs_witness :
  depsOf sampleProps sampleHooks = depsOf staticIconProps tallerHooks
  /\ animFABEffect (extended' sampleProps)
       (distance (animateFrom' sampleProps) (textWidth sampleHooks)
          (isV3 (theme sampleProps)))
       (scale sampleProps)
     = animFABEffect (extended' staticIconProps)
         (distance (animateFrom' staticIconProps) (textWidth tallerHooks)
            (isV3 (theme staticIconProps)))
         (scale staticIconProps).
Proof.
  assert (Hsame : sameInputs sampleProps staticIconProps sampleHooks
                    tallerHooks)
    by (repeat split; reflexivity).
  pose proof (targets_determined_by_inputs sampleCombinedStyles
                sampleFABColors sampleColorAlpha iosHost androidHost
                sampleProps staticIconProps sampleHooks tallerHooks Hsame)
    as (Hdeps & _ & _ & Hfab & _ & _).
  split; [exact Hdeps | exact Hfab].
Defined.

Lemma onTextLayout_frame_witness :
  onTextLayout true sampleHooks
    {| lines := [{| width := 99.2; height := 20 |}] |}
  = Some sampleHooks
  /\ onTextLayout true sampleHooks
       {| lines := [{| width := 120.5; height := 20 |}] |}
     = Some {| textWidth := ceil 120.5 - 12; textHeight := ceil 20 |}.
Proof.
  split.
  - apply (proj1 (TextMeasurement.onTextLayout_frame true sampleHooks
                    {| width := 99.2; height := 20 |} [])).
    split; vm_compute; reflexivity.
  - apply (proj2 (TextMeasurement.onTextLayout_frame true sampleHooks
                    {| width := 120.5; height := 20 |} [])).
    intros [Hw _]. vm_compute in Hw. discriminate Hw.
Defined.

Lemma drawerItem_margin_and_background_witness :
  DrawerItem.text_marginLeft
    (DrawerItem.render nonEmpty sampleColorOf starItem) = 12
  /\ DrawerItem.container_backgroundColor
       (DrawerItem.render nonEmpty sampleColorOf starItem)
     = "transparent"%string.
Proof.
  pose proof (DrawerItemFacts.drawerItem_margin_and_background nonEmpty
                sampleColorOf starItem) as (_ & _ & Hmargin & Hbg).
  split.
  - apply Hmargin. reflexivity.
  - apply Hbg. discriminate.
Defined.

End Samples.


(** * Further properties *)

(** ** Interpolation: equal inputs *)

Module InterpolationMore.
Import JS Animated AnimatedFAB Spec AnimatedFacts InterpolatedStyles.

Lemma findRange_loop_input_eq (x y : Q) (range : list Q) :
  x == y ->
  forall fuel i,
    findRange_loop x range i fuel = findRange_loop y range i fuel.
Proof.
  intros Hxy. induction fuel as [|fuel IH]; intro i; simpl.
  - reflexivity.
  - rewrite Hxy at 1. now rewrite IH.
Qed.

Lemma interpolate_input_eq (x y a b u v : Q) :
  x == y -> interpolate x a b u v == interpolate y a b u v.
Proof.
  intro Hxy. unfold interpolate.
  destruct (Qeq_bool u v); [reflexivity|].
  destruct (Qeq_bool a b).
  - rewrite Hxy at 1. reflexivity.
  - now rewrite Hxy.
Qed.

Lemma evaluatesTo_input_eq (cfg : InterpolationConfig) (x y v : Q) :
  x == y -> evaluatesTo cfg x v -> evaluatesTo cfg y v.
Proof.
  intros Hxy (r & Hr & Hv). unfold evaluatesTo, interpolation in *.
  destruct (validConfig cfg); [|discriminate].
  inversion Hr; subst. eexists. split; [reflexivity|].
  rewrite <- Hv. cbv zeta. unfold findRange.
  rewrite <- (findRange_loop_input_eq x y _ Hxy).
  symmetry. now apply interpolate_input_eq.
Qed.

Lemma evaluatesTo_value_eq (cfg : InterpolationConfig) (x v w : Q) :
  v == w -> evaluatesTo cfg x v -> evaluatesTo cfg x w.
Proof.
  intros Hvw (r & Hr & Hv). exists r. split; [exact Hr|]. now rewrite Hv.
Qed.

End InterpolationMore.


(** ** AnimatedFAB: the interpolations over the whole animation *)

Module StylesOfTheAnimation.
Import JS Animated AnimatedFAB Spec Lifecycle AnimatedFacts AnimatedFABFacts.
Import InterpolatedStyles InterpolationMore.

Section WithUtils.
Context {StyleProp CombinedStyles : Type}.
Variable getCombinedStyles : bool -> bool -> Q -> CombinedStyles.
Variable getFABColors :
  Theme -> FABVariant -> option bool -> option string
  -> option StyleProp -> string * string.
Variable colorAlphaRgbString : string -> Q -> string.

Abbreviation render :=
  (render getCombinedStyles getFABColors colorAlphaRgbString).

(** X1: the host accepts the six interpolations of a render exactly when
    [textWidth + borderRadius] is not negative: then every input range is
    non-decreasing in both directions, otherwise every one is rejected. *)
Theorem interpolations_accepted
  (host : Host) (props : Props StyleProp) (hooks : Hooks) :
  let s := render host props hooks in
  let gap := textWidth hooks + borderRadius (isV3 (theme props)) in
  (0 <= gap -> forallb validConfig (interpolations s) = true)
  /\ (gap < 0 ->
      forallb (fun cfg => negb (validConfig cfg)) (interpolations s) = true).
Proof.
  intros s gap. subst s gap.
  unfold interpolations.
  cbn [AnimatedFAB.render wrapper_scaleY extendedShadow_opacity
       circleShadow_opacity circleShadow_borderRadius label_style
       label_opacity label_translateX].
  unfold propForDirection, distance.
  destruct (animateFrom' props);
    cbn [isAnimatedFromRight animateFrom_eqb];
    set (tw := textWidth hooks); set (br := borderRadius _);
    unfold validConfig; simpl; split; intro Hgap.
  - rewrite !Qle_bool_true by lra. reflexivity.
  - rewrite !(Qle_bool_false 0 (tw + br)) by lra.
    rewrite !(Qle_bool_false 0 (_ * (tw + br))) by lra. reflexivity.
  - rewrite !Qle_bool_true by lra. reflexivity.
  - rewrite !(Qle_bool_false (- tw - br) 0) by lra.
    rewrite !(Qle_bool_false (- tw - br) (_ * (- tw - br))) by lra.
    reflexivity.
Qed.

(** X4: at the two ends: collapsed ([animFAB = 0]) the button has its full
    height, the label is shifted by 56 and the extended shadow is
    invisible; extended ([animFAB = distance]) the height is scaled by 0.9,
    the label is unshifted and the extended shadow is opaque. *)
Theorem motion_at_ends
  (host : Host) (props : Props StyleProp) (hooks : Hooks) :
  0 < textWidth hooks + borderRadius (isV3 (theme props)) ->
  let d :=
    distance (animateFrom' props) (textWidth hooks) (isV3 (theme props)) in
  let s := render host props hooks in
  evaluatesTo (wrapper_scaleY s) 0 1
  /\ evaluatesTo (wrapper_scaleY s) d 0.9
  /\ evaluatesTo (label_translateX (label_style s)) 0 56
  /\ evaluatesTo (label_translateX (label_style s)) d 0
  /\ evaluatesTo (extendedShadow_opacity s) 0 0
  /\ evaluatesTo (extendedShadow_opacity s) d 1.
Proof.
  intros Hpos d s. subst s d.
  cbn [AnimatedFAB.render wrapper_scaleY extendedShadow_opacity label_style
       label_translateX].
  destruct (animateFrom' props); unfold propForDirection;
    cbn [isAnimatedFromRight animateFrom_eqb].
  - pose proof (distance_left_pos _ _ Hpos) as Hd.
    destruct (two_points_left _ SCALE 1 Hd) as (Hsd & Hs0).
    destruct (two_points_left _ 0 SIZE Hd) as (Htd & Ht0).
    destruct (three_points_left _ 0.9 1 0.15 0 Hd) as (Hod & Ho0 & _);
      [lra | lra |].
    repeat split; assumption.
  - pose proof (distance_right_neg _ _ Hpos) as Hd.
    destruct (two_points_right _ SCALE 1 Hd) as (Hsd & Hs0).
    destruct (two_points_right _ 0 SIZE Hd) as (Htd & Ht0).
    destruct (three_points_right _ 0.9 1 0.15 0 Hd) as (Hod & Ho0 & _);
      [lra | lra |].
    repeat split; assumption.
Qed.

End WithUtils.

End StylesOfTheAnimation.


(** ** AnimatedFAB: renders, effects and running animations *)

Module LifecycleFacts.
Import JS Animated AnimatedFAB Spec Lifecycle AnimatedFacts AnimatedFABFacts.
Import Reachability Effects.

Lemma strictEq_of_eq (a b : Q) : a == b -> strictEq a b = true.
Proof. intro H. unfold strictEq. now apply Qeq_bool_iff. Qed.

Lemma commit_same_deps (prev cur : Deps) :
  sameDeps prev cur -> commit (Some prev) cur = [].
Proof.
  intros (Hv & Hs & Hd & He).
  unfold commit, visibilityDepsChanged, animFABDepsChanged.
  rewrite Hv, He, !eqb_reflx, (strictEq_of_eq _ _ Hs),
    (strictEq_of_eq _ _ Hd).
  reflexivity.
Qed.

Lemma run_app {S : Type} (host : Host) (evs1 evs2 : list (Event S)) :
  forall inst : Instance S,
    run host inst (evs1 ++ evs2)
    = match run host inst evs1 with
      | Some inst1 => run host inst1 evs2
      | None => None
      end.
Proof.
  induction evs1 as [|ev evs1 IH]; intro inst; simpl.
  - reflexivity.
  - destruct (step host inst ev); [apply IH | reflexivity].
Qed.

Lemma step_reachable {S : Type} (host : Host) (inst inst' : Instance S)
  (ev : Event S) :
  measurable ev -> reachable (isIOS host) (hooks inst) ->
  step host inst ev = Some inst' -> reachable (isIOS host) (hooks inst').
Proof.
  intros Hm Hr Hstep. destruct ev as [p'|ne|]; simpl in Hstep.
  - now inversion Hstep; subst.
  - destruct (onTextLayout _ _ _) as [h'|] eqn:Hl; [|discriminate].
    inversion Hstep; subst. simpl.
    eapply reachable_layout; [exact Hr | exact Hm | exact Hl].
  - now inversion Hstep; subst.
Qed.

Lemma run_reachable {S : Type} (host : Host) (evs : list (Event S)) :
  forall inst inst' : Instance S,
    Forall measurable evs -> reachable (isIOS host) (hooks inst) ->
    run host inst evs = Some inst' -> reachable (isIOS host) (hooks inst').
Proof.
  induction evs as [|ev evs IH]; intros inst inst' Hm Hr Hrun;
    simpl in Hrun.
  - now inversion Hrun; subst.
  - inversion Hm as [|? ? Hev Hevs]; subst.
    destruct (step host inst ev) as [inst1|] eqn:Hstep; [|discriminate].
    eapply IH; [exact Hevs | | exact Hrun].
    eapply step_reachable; eassumption.
Qed.

Lemma mount_reachable {S : Type} (isIOS : bool) (p : Props S) :
  reachable isIOS (hooks (mount p)).
Proof. apply reachable_initial. Qed.

(** After [AnimationsEnd] nothing runs and both refs hold their
    targets. *)
Lemma settled_values {S : Type} (host : Host) (inst inst' : Instance S) :
  consistent inst -> step host inst AnimationsEnd = Some inst' ->
  props inst' = props inst
  /\ hooks inst' = hooks inst
  /\ visibility (current (driver inst'))
     == (if visible' (props inst) then 1 else 0)
  /\ animFAB (current (driver inst'))
     == (if extended' (props inst)
         then distance (animateFrom' (props inst)) (textWidth (hooks inst))
                (isV3 (theme (props inst)))
         else 0).
Proof.
  intros (Hdeps & [Hv _] & [Ha _]) Hstep. simpl in Hstep.
  inversion Hstep; subst. cbn [props hooks driver settle current
    visibility animFAB].
  rewrite Hdeps in Hv, Ha.
  cbn [depsOf dep_visible dep_extended dep_distance] in Hv, Ha.
  repeat split; assumption.
Qed.

End LifecycleFacts.


Module EffectsAndRenders.
Import JS Animated AnimatedFAB Spec Lifecycle AnimatedFacts AnimatedFABFacts.
Import Reachability Effects LifecycleFacts InterpolatedStyles.
Import InterpolationMore.

(** X7: a render whose [visible], [scale], [distance] and [extended] are those
    of the previous render runs no effect: whatever animation is running
    goes on undisturbed. *)
Theorem unchanged_dependencies_restart_nothing
  {S : Type} (inst : Instance S) (p' : Props S) (h' : Hooks) :
  sameDeps (lastDeps inst) (depsOf p' h') ->
  driver (rerender inst p' h') = driver inst.
Proof.
  intro Hsame. unfold rerender. cbn [driver].
  now rewrite (commit_same_deps _ _ Hsame).
Qed.


(** X9: in any life of an instance, a render that flips [extended] starts a
    new expand/collapse animation towards the new target, and one that
    flips [visible] starts a new show/hide animation towards the new
    target, whatever was running. *)
Theorem toggles_restart_animations
  {S : Type} (host : Host) (p0 : Props S) (evs : list (Event S))
  (inst : Instance S) (p' : Props S) :
  run host (mount p0) evs = Some inst ->
  (extended' p' <> extended' (props inst) ->
   runningAnimFAB (driver (rerender inst p' (hooks inst)))
   = Some {| toValue :=
               if extended' p'
               then distance (animateFrom' p') (textWidth (hooks inst))
                      (isV3 (theme p'))
               else 0;
             duration := 150 * scale p';
             useNativeDriver := true;
             easing := Some EasingLinear |})
  /\ (visible' p' <> visible' (props inst) ->
      runningVisibility (driver (rerender inst p' (hooks inst)))
      = Some {| toValue := if visible' p' then 1 else 0;
                duration := (if visible' p' then 200 else 150) * scale p';
                useNativeDriver := true;
                easing := None |}).
Proof.
  intro Hrun.
  pose proof (run_consistent host evs _ _ (mount_consistent p0) Hrun)
    as (Hdeps & _ & _).
  unfold rerender. cbn [driver]. unfold commit.
  rewrite visibilityEffect_single, animFABEffect_single, Hdeps.
  unfold visibilityDepsChanged, animFABDepsChanged.
  cbn [depsOf dep_visible dep_scale dep_extended dep_distance].
  split.
  - intro Hflip.
    assert (Heqb : Bool.eqb (extended' (props inst)) (extended' p') = false).
    { apply eqb_false_iff. congruence. }
    rewrite Heqb, !orb_true_r.
    destruct (negb _ || negb _); reflexivity.
  - intro Hflip.
    assert (Heqb : Bool.eqb (visible' (props inst)) (visible' p') = false).
    { apply eqb_false_iff. congruence. }
    rewrite Heqb. cbn [negb orb].
    destruct (negb _ || negb _ || negb _); reflexivity.
Qed.

End EffectsAndRenders.


Module AtRest.
Import JS Animated AnimatedFAB Spec Lifecycle AnimatedFacts AnimatedFABFacts.
Import Reachability Effects Tracking LifecycleFacts InterpolatedStyles.
Import InterpolationMore.

Section WithUtils.
Context {StyleProp CombinedStyles : Type}.
Variable getCombinedStyles : bool -> bool -> Q -> CombinedStyles.
Variable getFABColors :
  Theme -> FABVariant -> option bool -> option string
  -> option StyleProp -> string * string.
Variable colorAlphaRgbString : string -> Q -> string.

Abbreviation render :=
  (render getCombinedStyles getFABColors colorAlphaRgbString).

(** X6: whatever happened to an instance (prop changes, measurements of
    non-negative width, animations ending), once its animations have
    finished nothing is running and, for the props handed in last and the
    text measured last, the surface's opacity and scale are 1 when
    [visible] holds and 0 otherwise, the label is opaque when [extended]
    holds and transparent otherwise, and the height is scaled by 0.9 when
    [extended] holds and by 1 otherwise. *)
Theorem settled_styles
  (host : Host) (p0 : Props StyleProp) (evs : list (Event StyleProp))
  (inst : Instance StyleProp) :
  Forall measurable evs ->
  run host (mount p0) (evs ++ [AnimationsEnd]) = Some inst ->
  let p := lastProps p0 evs in
  let s := render host p (hooks inst) in
  let values := current (driver inst) in
  props inst = p
  /\ measuredHooks (isIOS host) evs = Some (hooks inst)
  /\ runningVisibility (driver inst) = None
  /\ runningAnimFAB (driver inst) = None
  /\ visibility values == (if visible' p then 1 else 0)
  /\ evaluatesTo (label_opacity (label_style s)) (animFAB values)
       (if extended' p then 1 else 0)
  /\ evaluatesTo (wrapper_scaleY s) (animFAB values)
       (if extended' p then 0.9 else 1).
Proof.
  intros Hm Hrun p s values. subst s values p.
  rewrite run_app in Hrun.
  destruct (run host (mount p0) evs) as [inst1|] eqn:Hrun1; [|discriminate].
  simpl in Hrun.
  pose proof (run_consistent host evs _ _ (mount_consistent p0) Hrun1)
    as Hcons.
  pose proof (run_reachable host evs _ _ Hm
                (mount_reachable (isIOS host) p0) Hrun1) as Hreach.
  destruct (run_tracks host evs _ _ Hrun1) as [Htp Hth].
  cbn [mount props hooks] in Htp, Hth.
  assert (Hstep : step host inst1 AnimationsEnd = Some inst)
    by exact Hrun.
  destruct (settled_values host inst1 inst Hcons Hstep)
    as (Hp & Hh & Hv & Ha).
  rewrite <- Htp, Hh.
  split; [exact Hp|]. split; [exact Hth|].
  split; [now inversion Hrun|]. split; [now inversion Hrun|].
  split; [exact Hv|].
  pose proof (reachable_distance_pos _ (isV3 (theme (props inst1))) _ Hreach)
    as Hpos.
  cbn [AnimatedFAB.render label_style label_opacity wrapper_scaleY].
  revert Ha.
  destruct (animateFrom' (props inst1)); unfold propForDirection;
    cbn [isAnimatedFromRight animateFrom_eqb]; intro Ha.
  - pose proof (distance_left_pos _ _ Hpos) as Hd.
    destruct (three_points_left _ 0.7 1 0 0 Hd) as (H1 & H0 & _);
      [lra | lra |].
    destruct (two_points_left _ SCALE 1 Hd) as (Hsd & Hs0).
    destruct (extended' (props inst1)); split;
      (eapply evaluatesTo_input_eq; [symmetry; exact Ha|]); assumption.
  - pose proof (distance_right_neg _ _ Hpos) as Hd.
    destruct (three_points_right _ 0.7 1 0 0 Hd) as (H1 & H0 & _);
      [lra | lra |].
    destruct (two_points_right _ SCALE 1 Hd) as (Hsd & Hs0).
    destruct (extended' (props inst1)); split;
      (eapply evaluatesTo_input_eq; [symmetry; exact Ha|]); assumption.
Qed.

End WithUtils.

End AtRest.


(** ** AnimatedFAB: more on text measurement *)

Module TextMeasurementMore.
Import JS Animated AnimatedFAB Spec Lifecycle AnimatedFacts AnimatedFABFacts.
Import Reachability.

Lemma ceil_plus_12 (x : Q) : ceil (x + 12) == ceil x + 12.
Proof.
  unfold ceil.
  pose proof (Qle_ceiling x) as H1. pose proof (Qceiling_lt x) as H2.
  pose proof (Qle_ceiling (x + 12)) as H3.
  pose proof (Qceiling_lt (x + 12)) as H4.
  set (c := Qceiling x) in *. set (c' := Qceiling (x + 12)) in *.
  unfold Z.sub in H2, H4. rewrite inject_Z_plus in H2, H4.
  change (inject_Z (- (1))) with (- (1)) in H2, H4.
  assert (Hlt1 : inject_Z c' < inject_Z (c + 13)).
  { rewrite inject_Z_plus. change (inject_Z 13) with 13. lra. }
  assert (Hlt2 : inject_Z c < inject_Z (c' + - 11)).
  { rewrite inject_Z_plus. change (inject_Z (- 11)) with (- (11)). lra. }
  rewrite <- Zlt_Qlt in Hlt1, Hlt2.
  assert (Heq : c' = (c + 12)%Z) by lia.
  rewrite Heq, inject_Z_plus. reflexivity.
Qed.

(** X10: handling the same layout event a second time changes nothing, on
    every platform. *)
Theorem onTextLayout_idempotent
  (isIOS : bool) (h h' : Hooks) (nativeEvent : TextLayoutEventData) :
  onTextLayout isIOS h nativeEvent = Some h' ->
  onTextLayout isIOS h' nativeEvent = Some h'.
Proof.
  unfold onTextLayout, strictEq.
  destruct (lines nativeEvent) as [|line0 rest]; [discriminate|].
  set (cw := ceil (width line0)). set (ch := ceil (height line0)).
  destruct (negb (Qeq_bool cw (textWidth h))
            || negb (Qeq_bool ch (textHeight h))) eqn:Hchanged.
  - destruct isIOS; intro H; inversion H; subst; simpl.
    + rewrite (Qeq_bool_false cw (cw - 12)) by lra. reflexivity.
    + rewrite !Qeq_bool_true by reflexivity. reflexivity.
  - intro H. inversion H; subst. now rewrite Hchanged.
Qed.

(** X11: off iOS, after every layout event the stored width and height are the
    rounded-up width and height of the first line, whatever was stored
    before. *)
Theorem onTextLayout_stores_measurement
  (h h' : Hooks) (line0 : TextLayoutLine) (rest : list TextLayoutLine) :
  onTextLayout false h {| lines := line0 :: rest |} = Some h' ->
  textWidth h' == ceil (width line0)
  /\ textHeight h' == ceil (height line0).
Proof.
  unfold onTextLayout, strictEq. cbn [lines].
  set (cw := ceil (width line0)). set (ch := ceil (height line0)).
  destruct (Qeq_bool cw (textWidth h)) eqn:Ew;
    destruct (Qeq_bool ch (textHeight h)) eqn:Eh; simpl;
    intro H; inversion H; subst; simpl;
    try apply Qeq_bool_iff in Ew; try apply Qeq_bool_iff in Eh;
    split; try reflexivity; try (now symmetry).
Qed.

(** X12: on iOS the stored width depends on what was stored before: after a
    first line of some width and height has been stored, a first line 12
    narrower and of the same height is not stored, and the width kept is
    the rounded-up new width itself instead of that width less 12. *)
Theorem onTextLayout_ios_keeps_stale_width
  (h0 h1 : Hooks) (w ht : Q) :
  onTextLayout true h0 {| lines := [{| width := w + 12; height := ht |}] |}
  = Some h1 ->
  textWidth h1 == ceil (w + 12) - 12 ->
  onTextLayout true h1 {| lines := [{| width := w; height := ht |}] |}
  = Some h1
  /\ textWidth h1 == ceil w
  /\ ~ textWidth h1 == ceil w - 12.
Proof.
  intros Hfirst Hstored.
  assert (Hw : textWidth h1 == ceil w)
    by (rewrite Hstored, ceil_plus_12; lra).
  assert (Hh : textHeight h1 == ceil ht).
  { revert Hfirst. unfold onTextLayout, strictEq. cbn [lines width height].
    destruct (Qeq_bool (ceil ht) (textHeight h0)) eqn:Eh;
      destruct (Qeq_bool (ceil (w + 12)) (textWidth h0)) eqn:Ew; simpl;
      intro H; inversion H; subst; simpl; try reflexivity;
      apply Qeq_bool_iff in Eh; now symmetry. }
  split; [|split; [exact Hw | lra]].
  unfold onTextLayout, strictEq. cbn [lines width height].
  rewrite (Qeq_bool_true (ceil w) (textWidth h1)) by now symmetry.
  rewrite (Qeq_bool_true (ceil ht) (textHeight h1)) by now symmetry.
  reflexivity.
Qed.

End TextMeasurementMore.


(** ** Style composition *)

Module StyleSheetFacts.
Import JS StyleSheet.

Lemma get_set (key key' : string) (v : StyleValue) (result : Style) :
  get key (set key' v result)
  = if String.eqb key' key then Some v else get key result.
Proof.
  induction result as [|[k w] rest IH]; simpl.
  - reflexivity.
  - destruct (String.eqb k key') eqn:Ekk'; simpl.
    + apply String.eqb_eq in Ekk'. subst k.
      now destruct (String.eqb key' key).
    + destruct (String.eqb k key) eqn:Ek; [|exact IH].
      apply String.eqb_eq in Ek. subst k. now rewrite String.eqb_sym, Ekk'.
Qed.

Lemma get_none_iff (key : string) (result : Style) :
  get key result = None <-> ~ In key (map fst result).
Proof.
  induction result as [|[k w] rest IH]; simpl.
  - tauto.
  - destruct (String.eqb k key) eqn:Ek.
    + apply String.eqb_eq in Ek. split; [discriminate | tauto].
    + apply String.eqb_neq in Ek. rewrite IH. tauto.
Qed.

Lemma get_assign (key : string) (computed : Style) :
  NoDup (map fst computed) ->
  forall result : Style,
    get key (assign result computed)
    = match get key computed with
      | Some v => Some v
      | None => get key result
      end.
Proof.
  unfold assign.
  induction computed as [|[k v] rest IH]; intros Hnd result; simpl.
  - reflexivity.
  - inversion Hnd as [|? ? Hnotin Hrest]; subst.
    rewrite (IH Hrest), get_set.
    destruct (String.eqb k key) eqn:Ek.
    + apply String.eqb_eq in Ek. subst k.
      apply get_none_iff in Hnotin. now rewrite Hnotin.
    + reflexivity.
Qed.

Lemma set_keys (key : string) (v : StyleValue) (result : Style) :
  NoDup (map fst result) -> NoDup (map fst (set key v result)).
Proof.
  induction result as [|[k w] rest IH]; simpl; intro Hnd.
  - constructor; [tauto | constructor].
  - inversion Hnd as [|? ? Hnotin Hrest]; subst.
    destruct (String.eqb k key) eqn:Ek; simpl.
    + now constructor.
    + constructor; [|now apply IH].
      apply String.eqb_neq in Ek.
      apply get_none_iff. rewrite get_set.
      rewrite (proj2 (String.eqb_neq key k)) by congruence.
      now apply get_none_iff.
Qed.

Lemma assign_keys (computed result : Style) :
  NoDup (map fst result) -> NoDup (map fst (assign result computed)).
Proof.
  unfold assign. revert result.
  induction computed as [|[k v] rest IH]; intros result Hnd; simpl.
  - exact Hnd.
  - apply IH. now apply set_keys.
Qed.

Lemma flatten_array (items : list StyleProp) :
  flatten (StyleArray items) = Some (flattenInto flatten [] items).
Proof.
  simpl. f_equal. unfold flattenInto. generalize (@nil (string * StyleValue)).
  induction items as [|item rest IH]; intro result; simpl.
  - reflexivity.
  - apply IH.
Qed.

Lemma flattenInto_keys (items : list StyleProp) :
  forall result : Style,
    NoDup (map fst result) ->
    NoDup (map fst (flattenInto flatten result items)).
Proof.
  unfold flattenInto.
  induction items as [|item rest IH]; intros result Hnd; simpl.
  - exact Hnd.
  - apply IH. destruct (flatten item); [now apply assign_keys | exact Hnd].
Qed.

Lemma flatten_keys (style : StyleProp) (result : Style) :
  flatten style = Some result -> NoDup (map fst result).
Proof.
  destruct style as [|entries|items].
  - discriminate.
  - simpl. intro H. inversion H; subst. apply assign_keys. constructor.
  - rewrite flatten_array. intro H. inversion H; subst.
    apply flattenInto_keys. constructor.
Qed.

Lemma flattenInto_app (items1 items2 : list StyleProp) (result : Style) :
  flattenInto flatten result (items1 ++ items2)
  = flattenInto flatten (flattenInto flatten result items1) items2.
Proof. unfold flattenInto. apply fold_left_app. Qed.

(** The last entry of a style array wins, key by key. *)
Lemma last_style_wins (items : list StyleProp) (style : StyleProp)
  (key : string) :
  resolved key (StyleArray (items ++ [style]))
  = match resolved key style with
    | Some v => Some v
    | None => resolved key (StyleArray items)
    end.
Proof.
  unfold resolved. rewrite !flatten_array, flattenInto_app.
  unfold flattenInto at 1. simpl.
  destruct (flatten style) as [computed|] eqn:Hf; [|reflexivity].
  apply get_assign. eapply flatten_keys. exact Hf.
Qed.

End StyleSheetFacts.


(** ** Composed styles of the three components *)

Module ComposedStyles.
Import JS StyleSheet StyleSheetFacts.

(** X13: the [style] prop of an [AnimatedFAB] comes last in the style of its
    surface, so each key it sets wins. Where it sets none: a disabled
    button has elevation 0 on every platform, an enabled one 6 on iOS and
    0 elsewhere; the background is transparent, the position absolute and
    the opacity is the [visibility] ref. *)
Theorem fab_surface_style
  (host : Host) (props : AnimatedFAB.Props StyleProp) :
  let user := withDefault StyleFalsy (AnimatedFAB.style props) in
  let composed := AnimatedFABSurface.surfaceStyle host props in
  (forall (key : string) (v : StyleValue),
      resolved key user = Some v -> resolved key composed = Some v)
  /\ (resolved "elevation" user = None ->
      resolved "elevation" composed
      = Some (VNum (if truthy (AnimatedFAB.disabled props) then 0
                    else if AnimatedFAB.isIOS host then 6 else 0)))
  /\ (resolved "backgroundColor" user = None ->
      resolved "backgroundColor" composed = Some (VStr "transparent"))
  /\ (resolved "position" user = None ->
      resolved "position" composed = Some (VStr "absolute"))
  /\ (resolved "opacity" user = None ->
      resolved "opacity" composed = Some (VAnimated "visibility")).
Proof.
  intros user composed. subst composed. unfold AnimatedFABSurface.surfaceStyle.
  fold user.
  match goal with
  | |- context [StyleArray [?a; ?b; ?c; user]] =>
      change (StyleArray [a; b; c; user])
        with (StyleArray ([a; b; c] ++ [user]))
  end.
  split.
  { intros key v Hv. now rewrite last_style_wins, Hv. }
  repeat split; intro Hnone; rewrite last_style_wins, Hnone;
    destruct (truthy (AnimatedFAB.disabled props));
    destruct (AnimatedFAB.isIOS host); reflexivity.
Qed.

Section DrawerItemStyles.
Context {IconSource : Type}.
Variable toBoolean : IconSource -> bool.
Variable colorAlphaRgbString : option string -> Q -> string.
Variable black : string.

(** X14: the [style] prop of a drawer item comes last in the style of its
    container, so each key it sets wins, the background colour of an
    active item included. Where it sets none: the background is the
    computed one, the vertical margin is 0 under a v3 theme and 4
    otherwise, the height is 56 under a v3 theme and unset otherwise, the
    radius is 28 under a v3 theme and the theme's roundness otherwise. *)
Theorem drawerItem_container_style
  (props : DrawerItem.Props IconSource) (style : StyleProp) :
  let v3 := isV3 (DrawerItem.theme props) in
  let composed :=
    DrawerItemContainer.containerStyle colorAlphaRgbString props style in
  (forall (key : string) (v : StyleValue),
      resolved key style = Some v -> resolved key composed = Some v)
  /\ (resolved "backgroundColor" style = None ->
      resolved "backgroundColor" composed
      = Some (VStr (DrawerItem.backgroundColor colorAlphaRgbString props)))
  /\ (resolved "marginVertical" style = None ->
      resolved "marginVertical" composed
      = Some (VNum (if v3 then 0 else 4)))
  /\ (resolved "height" style = None ->
      resolved "height" composed = (if v3 then Some (VNum 56) else None))
  /\ (resolved "borderRadius" style = None ->
      resolved "borderRadius" composed
      = Some (VNum (if v3 then 28
                    else roundness (DrawerItem.theme props)))).
Proof.
  intros v3 composed. subst composed v3.
  unfold DrawerItemContainer.containerStyle.
  match goal with
  | |- context [StyleArray [?a; ?b; ?c; style]] =>
      change (StyleArray [a; b; c; style])
        with (StyleArray ([a; b; c] ++ [style]))
  end.
  split.
  { intros key v Hv. now rewrite last_style_wins, Hv. }
  repeat split; intro Hnone; rewrite last_style_wins, Hnone;
    destruct (isV3 (DrawerItem.theme props)); reflexivity.
Qed.

(** X15: the colour handed to the [right] callback of a drawer item is the
    content colour when that is a non-empty string and [black] otherwise;
    it is never empty when [black] is not. *)
Theorem drawerItem_right_color (props : DrawerItem.Props IconSource) :
  let given := DrawerItem.contentColor colorAlphaRgbString props in
  let handed :=
    DrawerItemContainer.rightColor colorAlphaRgbString black props in
  (forall c : string, given = Some c -> c <> ""%string -> handed = c)
  /\ (given = None \/ given = Some ""%string -> handed = black)
  /\ (black <> ""%string -> handed <> ""%string).
Proof.
  intros given handed. subst handed given.
  unfold DrawerItemContainer.rightColor.
  destruct (DrawerItem.contentColor colorAlphaRgbString props) as [c|].
  - destruct (String.eqb c "") eqn:Ec.
    + apply String.eqb_eq in Ec. subst c. repeat split.
      * intros c Hc Hne. inversion Hc; subst. contradiction.
      * intro Hb. exact Hb.
    + apply String.eqb_neq in Ec. repeat split.
      * intros c' Hc _. now inversion Hc.
      * intros [H|H]; [discriminate | inversion H; contradiction].
      * intros _. exact Ec.
  - repeat split.
    + intros c Hc. discriminate.
    + intro Hb. exact Hb.
Qed.

(** X16: a drawer item leaves a left margin before its label exactly when it
    renders an icon. *)
Theorem drawerItem_margin_iff_icon (props : DrawerItem.Props IconSource) :
  let styles := DrawerItem.render toBoolean colorAlphaRgbString props in
  DrawerItem.icon_rendered styles = true
  <-> ~ DrawerItem.text_marginLeft styles == 0.
Proof.
  intro styles. subst styles.
  cbn [DrawerItem.render DrawerItem.icon_rendered DrawerItem.text_marginLeft].
  unfold DrawerItem.labelMargin.
  destruct (DrawerItem.iconGiven toBoolean (DrawerItem.icon props));
    destruct (isV3 (DrawerItem.theme props)); split; intro H;
    try reflexivity; try discriminate; try (intro H0; discriminate H0);
    exfalso; apply H; reflexivity.
Qed.

End DrawerItemStyles.

Section DrawerSectionStyles.
Variable colorAlphaRgbString : option string -> Q -> string.
Variable neutralVariant50 : string.

Abbreviation renderSection :=
  (DrawerSection.render colorAlphaRgbString neutralVariant50).

(** X17: a drawer section renders its title block exactly when the title is a
    non-empty string; an empty title is itself left as the first child.
    The block is 56 high under a v3 theme and 40 otherwise, its text is
    indented by 28 under a v3 theme and by 16 otherwise and has the title
    colour; the divider is inset and bold exactly under a v3 theme; each
    key of the [style] prop wins over the section's own container
    style. *)
Theorem drawerSection_layout (props : DrawerSection.Props) :
  let v3 := isV3 (DrawerSection.theme props) in
  let r := renderSection props in
  match DrawerSection.title props with
  | None => DrawerSection.titleChild r = DrawerSection.TitleUndefined
  | Some t =>
      if String.eqb t "" then
        DrawerSection.titleChild r = DrawerSection.TitleEmptyString
      else
        exists block text : StyleProp,
          DrawerSection.titleChild r
          = DrawerSection.TitleBlock block t "title-small" text
          /\ resolved "height" block = Some (VNum (if v3 then 56 else 40))
          /\ resolved "justifyContent" block = Some (VStr "center")
          /\ resolved "marginLeft" text
             = Some (VNum (if v3 then 28 else 16))
          /\ resolved "color" text
             = Some (VStr (DrawerSection.titleColor colorAlphaRgbString
                             (DrawerSection.theme props)))
  end
  /\ DrawerSection.insets (DrawerSection.divider r) = v3
  /\ DrawerSection.bold (DrawerSection.divider r) = v3
  /\ (forall (key : string) (v : StyleValue),
         resolved key (DrawerSection.style props) = Some v ->
         resolved key (DrawerSection.containerStyle r) = Some v)
  /\ (resolved "marginBottom" (DrawerSection.style props) = None ->
      resolved "marginBottom" (DrawerSection.containerStyle r)
      = Some (VNum 4)).
Proof.
  intros v3 r. subst r v3.
  cbn [DrawerSection.render DrawerSection.titleChild DrawerSection.divider
       DrawerSection.insets DrawerSection.bold
       DrawerSection.containerStyle].
  split; [|split; [reflexivity | split; [reflexivity|]]].
  - destruct (DrawerSection.title props) as [t|]; [|reflexivity].
    destruct (String.eqb t ""); [reflexivity|].
    do 2 eexists. split; [reflexivity|].
    destruct (isV3 (DrawerSection.theme props)); repeat split; reflexivity.
  - match goal with
    | |- context [StyleArray [?a; ?b]] =>
        change (StyleArray [a; b]) with (StyleArray ([a] ++ [b]))
    end.
    split.
    + intros key v Hv. now rewrite last_style_wins, Hv.
    + intro Hnone. rewrite last_style_wins, Hnone. reflexivity.
Qed.

End DrawerSectionStyles.

End ComposedStyles.


(** ** The example screen *)

Module ExampleFacts.
Import AnimatedFAB CustomFABControls AnimatedFABExample ExampleSpec.

Lemma floor_le_zero_iff (q : Q) : inject_Z (Qfloor q) <= 0 <-> q < 1.
Proof.
  pose proof (Qfloor_le q) as Hle. pose proof (Qlt_floor q) as Hlt.
  rewrite inject_Z_plus in Hlt. change (inject_Z 1) with 1 in Hlt.
  split; intro H.
  - lra.
  - assert (Hz : inject_Z (Qfloor q) < inject_Z 1)
      by (change (inject_Z 1) with 1; lra).
    rewrite <- Zlt_Qlt in Hz.
    change 0 with (inject_Z 0). rewrite <- Zle_Qle. lia.
Qed.

(** X18: on iOS a scroll event extends the button exactly when it carries a
    vertical offset below 1, so also above the top of the list; an event
    without offset collapses it. Nothing else changes. *)
Theorem onScroll_ios_extends_near_top
  (state : State) (nativeEvent : option NativeScrollEvent) :
  let state' := onScroll true state nativeEvent in
  (extended state' = true
   <-> exists (e : NativeScrollEvent) (p : Point),
         nativeEvent = Some e /\ contentOffset e = Some p /\ y p < 1)
  /\ visible state' = visible state
  /\ controls state' = controls state
  /\ velocity state' = velocity state.
Proof.
  intro state'. subst state'. unfold onScroll. cbn [negb extended visible
    controls velocity nullish].
  split; [|repeat split].
  destruct nativeEvent as [[[[px py]|]]|]; cbn [contentOffset option_map
    Math_floor leZero y].
  - rewrite Qle_bool_iff, floor_le_zero_iff. split.
    + intro H. now exists {| contentOffset := Some {| x := px; y := py |} |},
        {| x := px; y := py |}.
    + intros (e & p & He & Hp & Hy). inversion He; subst.
      simpl in Hp. inversion Hp; subst. exact Hy.
  - split; [discriminate|].
    intros (e & p & He & Hp & _). inversion He; subst. discriminate.
  - split; [discriminate|]. intros (e & p & He & _). discriminate.
Qed.

(** X19: off iOS a scroll event changes neither [extended] nor [visible] nor
    the controls; it stores the integer part of the vertical offset in
    [velocity], and [NaN] when the event carries no offset: the fallback
    to 0 is never taken. *)
Theorem onScroll_elsewhere_tracks_offset
  (state : State) (nativeEvent : option NativeScrollEvent) :
  let state' := onScroll false state nativeEvent in
  extended state' = extended state
  /\ visible state' = visible state
  /\ controls state' = controls state
  /\ match nativeEvent with
     | Some {| contentOffset := Some p |} =>
         exists n : Z,
           velocity state' = Num (inject_Z n)
           /\ inject_Z n <= y p /\ y p < inject_Z n + 1
     | _ => velocity state' = NaN
     end.
Proof.
  intro state'. subst state'. unfold onScroll. cbn [negb extended visible
    controls velocity nullish].
  repeat split.
  destruct nativeEvent as [[[p|]]|]; cbn [contentOffset option_map
    Math_floor]; try reflexivity.
  exists (Qfloor (y p)). split; [reflexivity|]. split.
  - apply Qfloor_le.
  - pose proof (Qlt_floor (y p)) as H. rewrite inject_Z_plus in H.
    exact H.
Qed.

Lemma checkedOptions_control {A : Type} (eqb : A -> A -> bool)
  (options : list A) (value : A) :
  checkedOptions (CustomControl eqb options value)
  = filter (eqb value) options.
Proof.
  unfold checkedOptions, CustomControl.
  induction options as [|item rest IH]; simpl.
  - reflexivity.
  - destruct (eqb value item); simpl; now rewrite IH.
Qed.

Lemma afterPresses_fields (presses : list Press) :
  forall start : Controls,
    iconMode (afterPresses start presses)
    = lastIconMode (iconMode start) presses
    /\ animateFrom (afterPresses start presses)
       = lastAnimateFrom (animateFrom start) presses.
Proof.
  unfold afterPresses, lastIconMode, lastAnimateFrom.
  induction presses as [|press rest IH]; intro start; simpl.
  - split; reflexivity.
  - destruct (IH (onPress press start)) as [H1 H2].
    rewrite H1, H2. destruct press; split; reflexivity.
Qed.

(** X20: after any sequence of presses, each of the two controls shows exactly
    one checked radio button: the option pressed last in that control, or
    its starting value when none of its options was pressed; presses in
    one control never move the other. *)
Theorem one_option_checked_after_presses
  (start : Controls) (presses : list Press) :
  let shown := render (afterPresses start presses) in
  checkedOptions (iconModeControl shown)
  = [lastIconMode (iconMode start) presses]
  /\ checkedOptions (animateFromControl shown)
     = [lastAnimateFrom (animateFrom start) presses].
Proof.
  intro shown. subst shown. unfold render.
  cbn [iconModeControl animateFromControl].
  rewrite !checkedOptions_control.
  destruct (afterPresses_fields presses start) as [H1 H2].
  rewrite H1, H2.
  destruct (lastIconMode _ _); destruct (lastAnimateFrom _ _);
    split; reflexivity.
Qed.

End ExampleFacts.


(** ** AnimatedFAB: the measured width through the life of an instance *)

Module MeasuredWidth.
Import JS Animated AnimatedFAB Spec Lifecycle AnimatedFacts AnimatedFABFacts.
Import Reachability LifecycleFacts.

Lemma ceil_integer_nonneg (x : Q) :
  0 <= x -> exists n : Z, ceil x = inject_Z n /\ (0 <= n)%Z.
Proof.
  intro Hx. exists (Qceiling x). split; [reflexivity|].
  pose proof (Qle_ceiling x) as H.
  rewrite Zle_Qle. change (inject_Z 0) with 0. lra.
Qed.

Lemma reachable_width_integer (isIOS : bool) (h : Hooks) :
  reachable isIOS h ->
  exists n : Z,
    textWidth h == inject_Z n
    /\ (if isIOS then -12 <= n else 0 <= n)%Z.
Proof.
  induction 1 as [|h h' ev Hr IH Hpos Hev].
  - exists 0%Z. split; [reflexivity|]. destruct isIOS; lia.
  - unfold onTextLayout in Hev.
    destruct (lines ev) as [|line0 rest]; [discriminate|].
    inversion Hpos as [|? ? Hw _]; subst.
    destruct (ceil_integer_nonneg _ Hw) as (c & Hc & Hc0).
    destruct (negb _ || negb _) in Hev.
    + destruct isIOS; inversion Hev; subst; simpl; rewrite Hc.
      * exists (c + - 12)%Z. split; [|lia].
        rewrite inject_Z_plus. reflexivity.
      * exists c. split; [reflexivity | exact Hc0].
    + inversion Hev; subst. exact IH.
Qed.

(** X5: through any life of an instance in which no measurement reports a
    negative width, the stored width is a whole number, at least -12 on
    iOS and at least 0 elsewhere; so [textWidth + borderRadius] is at least
    4 and the distance is never 0, in either direction and under either
    theme. *)
Theorem measured_width_invariant
  {S : Type} (host : Host) (p0 : Props S) (evs : list (Event S))
  (inst : Instance S) :
  Forall measurable evs ->
  run host (mount p0) evs = Some inst ->
  (exists n : Z,
      textWidth (hooks inst) == inject_Z n
      /\ (if isIOS host then -12 <= n else 0 <= n)%Z)
  /\ (forall v3 : bool, 4 <= textWidth (hooks inst) + borderRadius v3)
  /\ (forall (a : AnimatedFABAnimateFrom) (v3 : bool),
         ~ distance a (textWidth (hooks inst)) v3 == 0).
Proof.
  intros Hm Hrun.
  pose proof (run_reachable host evs _ _ Hm
                (mount_reachable (isIOS host) p0) Hrun) as Hreach.
  pose proof (reachable_textWidth _ _ Hreach) as Hw.
  split; [now apply reachable_width_integer|]. split.
  - intro v3. pose proof (borderRadius_bounds v3). lra.
  - intros a v3. pose proof (borderRadius_bounds v3).
    unfold distance. destruct a; simpl; lra.
Qed.

End MeasuredWidth.


(** ** The further theorems at sample inputs *)

Module MoreSamples.
Import JS Animated AnimatedFAB Spec Lifecycle Examples MoreExamples.
Import AnimatedFacts.

Lemma sampleLife_measurable : Forall measurable sampleLife.
Proof.
  repeat constructor. unfold Qle. simpl. lia.
Qed.

Lemma expandingLife_measurable : Forall measurable expandingLife.
Proof.
  repeat constructor. unfold Qle. simpl. lia.
Qed.

Lemma sampleLife_run :
  run iosHost (mount sampleProps) (sampleLife ++ [AnimationsEnd])
  = Some sampleFinal.
Proof. vm_compute. reflexivity. Qed.

Lemma motion_at_ends_witness :
  evaluatesTo
    (wrapper_scaleY (sampleRender iosHost sampleProps sampleHooks)) 0 1
  /\ evaluatesTo
       (wrapper_scaleY (sampleRender iosHost sampleProps sampleHooks))
       (distance fromRight 100 true) 0.9.
Proof.
  assert (Hpos : 0 < textWidth sampleHooks
                     + borderRadius (isV3 (theme sampleProps)))
    by (vm_compute; reflexivity).
  pose proof (StylesOfTheAnimation.motion_at_ends sampleCombinedStyles
                sampleFABColors sampleColorAlpha iosHost sampleProps
                sampleHooks Hpos) as (H0 & Hd & _).
  split; [exact H0 | exact Hd].
Defined.

Lemma unchanged_dependencies_restart_nothing_witness :
  driver (rerender (mount sampleProps) staticIconProps initialHooks)
  = driver (mount sampleProps).
Proof.
  apply EffectsAndRenders.unchanged_dependencies_restart_nothing.
  repeat split; reflexivity.
Defined.


Lemma toggles_restart_animations_witness :
  runningAnimFAB (driver (rerender sampleFinal sampleProps (hooks sampleFinal)))
  = Some {| toValue :=
              if extended' sampleProps
              then distance (animateFrom' sampleProps)
                     (textWidth (hooks sampleFinal))
                     (isV3 (theme sampleProps))
              else 0;
            duration := 150 * scale sampleProps;
            useNativeDriver := true;
            easing := Some EasingLinear |}.
Proof.
  apply (proj1 (EffectsAndRenders.toggles_restart_animations iosHost
                  sampleProps sampleEvents sampleFinal sampleProps
                  ltac:(vm_compute; reflexivity))).
  vm_compute. discriminate.
Defined.

Lemma settled_styles_witness :
  props shownSettled = shownExpanded
  /\ visibility (current (driver shownSettled))
     == (if visible' shownExpanded then 1 else 0)
  /\ evaluatesTo
       (label_opacity
          (label_style
             (sampleRender iosHost shownExpanded (hooks shownSettled))))
       (animFAB (current (driver shownSettled)))
       (if extended' shownExpanded then 1 else 0).
Proof.
  pose proof (AtRest.settled_styles sampleCombinedStyles sampleFABColors
                sampleColorAlpha iosHost hiddenCollapsed expandingLife
                shownSettled expandingLife_measurable
                ltac:(vm_compute; reflexivity))
    as (Hp & _ & _ & _ & Hv & Hl & _).
  split; [exact Hp|]. split; [exact Hv | exact Hl].
Defined.

Lemma onTextLayout_idempotent_witness :
  onTextLayout true (hooks sampleMeasured) sampleLayout
  = Some (hooks sampleMeasured).
Proof.
  apply (TextMeasurementMore.onTextLayout_idempotent true initialHooks).
  vm_compute. reflexivity.
Defined.

Lemma onTextLayout_stores_measurement_witness :
  textWidth {| textWidth := 101; textHeight := 20 |} == ceil 100.2
  /\ textHeight {| textWidth := 101; textHeight := 20 |} == ceil 19.5.
Proof.
  apply (TextMeasurementMore.onTextLayout_stores_measurement sampleHooks
           {| textWidth := 101; textHeight := 20 |}
           {| width := 100.2; height := 19.5 |} []).
  vm_compute. reflexivity.
Defined.

Lemma onTextLayout_ios_keeps_stale_width_witness :
  onTextLayout true {| textWidth := 100; textHeight := 20 |} narrowerLayout
  = Some {| textWidth := 100; textHeight := 20 |}
  /\ textWidth {| textWidth := 100; textHeight := 20 |} == ceil 100
  /\ ~ textWidth {| textWidth := 100; textHeight := 20 |} == ceil 100 - 12.
Proof.
  apply (TextMeasurementMore.onTextLayout_ios_keeps_stale_width initialHooks
           {| textWidth := 100; textHeight := 20 |} 100 19.5).
  - vm_compute. reflexivity.
  - vm_compute. reflexivity.
Defined.

Lemma measured_width_invariant_witness :
  (exists n : Z,
      textWidth (hooks sampleFinal) == inject_Z n
      /\ (if isIOS iosHost then -12 <= n else 0 <= n)%Z)
  /\ (forall v3 : bool, 4 <= textWidth (hooks sampleFinal) + borderRadius v3)
  /\ (forall (a : AnimatedFABAnimateFrom) (v3 : bool),
         ~ distance a (textWidth (hooks sampleFinal)) v3 == 0).
Proof.
  apply (MeasuredWidth.measured_width_invariant iosHost sampleProps
           (sampleLife ++ [AnimationsEnd]) sampleFinal).
  - repeat constructor. unfold Qle. simpl. lia.
  - exact sampleLife_run.
Defined.

End MoreSamples.


(** ** AnimatedFAB: interpolated styles at the two ends, over doubles *)

Module DoubleFacts.
Import PrimFloat SpecFloat FloatOps FloatAxioms.
Import AnimatedFAB Double.
#[local] Open Scope float_scope.

Lemma holdsFrom_spec (f : Z -> bool) (n : nat) :
  forall lo : Z,
    holdsFrom f lo n = true ->
    forall z : Z, (lo <= z < lo + Z.of_nat n)%Z -> f z = true.
Proof.
  induction n as [|n IH]; intros lo H z Hz.
  - simpl in Hz. lia.
  - simpl in H. destruct (f lo) eqn:Hlo; [|discriminate].
    destruct (Z.eq_dec z lo) as [->|Hne]; [exact Hlo|].
    apply (IH (lo + 1)%Z H). lia.
Qed.

Lemma hasValue_true (cfg : InterpolationConfig) (x v : float) :
  hasValue cfg x v = true -> interpolation cfg x = Some v.
Proof.
  unfold hasValue. destruct (interpolation cfg x) as [r|]; [|discriminate].
  intro H. apply Leibniz.eqb_spec in H. now subst.
Qed.

(** Below zero, two doubles each at most the other are the same
    double. *)
Lemma leb_antisym_negative (x m : float) :
  leb x m = true -> leb m x = true -> ltb m 0 = true -> x = m.
Proof.
  rewrite !leb_spec, ltb_spec. intros Hxm Hmx Hm.
  apply Prim2SF_inj.
  change (Prim2SF 0) with (S754_zero false) in Hm.
  unfold SFleb, SFltb in *.
  destruct (Prim2SF x) as [sx| sx | | sx mx ex];
    destruct (Prim2SF m) as [sm| sm | | sm mm em];
    simpl in Hxm, Hmx, Hm; try discriminate;
    try (destruct sx; discriminate); try (destruct sm; discriminate).
  all: destruct sx, sm; simpl in *; try discriminate; try reflexivity.
  rewrite (Z.compare_antisym ex em) in Hmx.
  destruct (Z.compare_spec ex em) as [Heq|Hlt|Hgt]; simpl in *;
    try discriminate.
  subst em.
  change (PosDef.Pos.compare_cont Eq mx mm) with (Pos.compare mx mm) in Hxm.
  change (PosDef.Pos.compare_cont Eq mm mx) with (Pos.compare mm mx) in Hmx.
  rewrite (Pos.compare_antisym mx mm) in Hmx.
  destruct (Pos.compare_spec mx mm) as [Heq|Hlt|Hgt]; simpl in *;
    try discriminate.
  now subst.
Qed.

End DoubleFacts.


Module DoubleStyles.
Import PrimFloat SpecFloat FloatOps FloatAxioms.
Import AnimatedFAB Double DoubleFacts.
#[local] Open Scope float_scope.
#[local] Set Warnings "-inexact-float".

(** The checks hold of every width covered, under both themes and in both
    directions. *)
Lemma labelEnds_covered :
  holdsFrom (bothThemesAndDirections labelEnds) (-12) (Z.to_nat 100013)
  = true.
Proof. vm_compute. reflexivity. Qed.

Lemma circleEnds_covered :
  holdsFrom (bothThemesAndDirections circleEnds) (-12) (Z.to_nat 100013)
  = true.
Proof. vm_compute. reflexivity. Qed.

Lemma covered_check
  (check : AnimatedFABAnimateFrom -> bool -> Z -> bool) :
  holdsFrom (bothThemesAndDirections check) (-12) (Z.to_nat 100013) = true ->
  forall (a : AnimatedFABAnimateFrom) (v3 : bool) (tw : Z),
    widthCovered tw -> check a v3 tw = true.
Proof.
  intros Hall a v3 tw Hw.
  assert (H : bothThemesAndDirections check tw = true).
  { apply (holdsFrom_spec _ _ _ Hall). unfold widthCovered in Hw.
    rewrite Z2Nat.id by lia. lia. }
  unfold bothThemesAndDirections in H.
  repeat (apply andb_prop in H; destruct H as [H ?]).
  destruct a, v3; assumption.
Qed.

(** From the right: beyond [0.7 * distance] the label's opacity is read off
    the flat part; at [0.7 * distance] it is the checked value. *)
Lemma label_flat_right (v3 : bool) (tw : Z) (x : float) :
  labelEnds fromRight v3 tw = true ->
  segment (0.7 * distance fromRight (ofZ tw) v3) 0 x = true ->
  interpolation (label_opacity (label_style (plainRender fromRight v3 (ofZ tw))))
    x
  = Some 0.
Proof.
  unfold labelEnds. cbn [isAnimatedFromRight animateFrom_eqb].
  set (d := distance fromRight (ofZ tw) v3).
  set (m := 0.7 * d).
  set (cfg := label_opacity _).
  intros Hcheck Hseg.
  apply andb_prop in Hcheck. destruct Hcheck as [Hcheck Horder].
  apply andb_prop in Hcheck. destruct Hcheck as [Hcheck Hat0].
  apply andb_prop in Hcheck. destruct Hcheck as [Hcheck Hatm].
  apply andb_prop in Hcheck. destruct Hcheck as [Hvalid Hatd].
  apply andb_prop in Horder. destruct Horder as [Hlt Hle].
  unfold segment in Hseg.
  rewrite Hle in Hseg.
  apply andb_prop in Hseg. destruct Hseg as [Hmx Hx0].
  destruct (leb x m) eqn:Hxm.
  - assert (Heq : x = m) by now apply leb_antisym_negative.
    subst x. now apply hasValue_true.
  - unfold interpolation.
    rewrite Hvalid.
    subst cfg. cbn [plainRender render label_style label_opacity inputRange
      outputRange propForDirection isAnimatedFromRight animateFrom_eqb
      animateFrom' JS.withDefault animateFrom plainProps theme isV3
      textWidth].
    fold d. fold m. unfold findRange. cbn [length findRange_loop Nat.sub
      Nat.ltb Nat.leb nth].
    rewrite Hxm. reflexivity.
Qed.

Lemma label_flat_left (v3 : bool) (tw : Z) (x : float) :
  labelEnds fromLeft v3 tw = true ->
  segment (0.7 * distance fromLeft (ofZ tw) v3) 0 x = true ->
  interpolation (label_opacity (label_style (plainRender fromLeft v3 (ofZ tw))))
    x
  = Some 0.
Proof.
  unfold labelEnds. cbn [isAnimatedFromRight animateFrom_eqb].
  set (d := distance fromLeft (ofZ tw) v3).
  set (m := 0.7 * d).
  set (cfg := label_opacity _).
  intros Hcheck Hseg.
  apply andb_prop in Hcheck. destruct Hcheck as [Hcheck Horder].
  apply andb_prop in Hcheck. destruct Hcheck as [Hcheck Hat0].
  apply andb_prop in Hcheck. destruct Hcheck as [Hcheck Hatm].
  apply andb_prop in Hcheck. destruct Hcheck as [Hvalid Hatd].
  apply andb_prop in Horder. destruct Horder as [Hlt Hle].
  unfold segment in Hseg.
  apply negb_true_iff in Hle. rewrite Hle in Hseg.
  apply andb_prop in Hseg. destruct Hseg as [H0x Hxm].
  unfold interpolation.
  rewrite Hvalid.
  subst cfg. cbn [plainRender render label_style label_opacity inputRange
    outputRange propForDirection isAnimatedFromRight animateFrom_eqb
    animateFrom' JS.withDefault animateFrom plainProps theme isV3
    textWidth rev app].
  fold d. fold m. unfold findRange. cbn [length findRange_loop Nat.sub
    Nat.ltb Nat.leb nth].
  rewrite Hxm. reflexivity.
Qed.

Section WithUtils.
Context {StyleProp CombinedStyles : Type}.
Variable getCombinedStyles : bool -> bool -> float -> CombinedStyles.
Variable getFABColors :
  Theme -> FABVariant -> option bool -> option string
  -> option StyleProp -> string * string.
Variable colorAlphaRgbString : string -> float -> string.

Abbreviation render :=
  (render getCombinedStyles getFABColors colorAlphaRgbString).

(** C6: with the numbers as the code computes them, for every whole text
    width from -12 to 100000, under both themes and in both directions,
    the label's opacity is exactly 1 at [animFAB = distance] and exactly 0
    at every [animFAB] on the segment between [0.7 * distance] and 0, ends
    included; so the label is opaque when extended and transparent when
    collapsed. *)
Theorem label_opacity_at_ends
  (host : Host) (props : Props StyleProp) (tw : Z) (th : float) :
  widthCovered tw ->
  let d := distance (animateFrom' props) (ofZ tw) (isV3 (theme props)) in
  let opacity :=
    label_opacity
      (label_style
         (render host props {| textWidth := ofZ tw; textHeight := th |})) in
  interpolation opacity d = Some 1
  /\ (forall x : float,
         segment (0.7 * d) 0 x = true -> interpolation opacity x = Some 0)
  /\ interpolation opacity 0 = Some 0.
Proof.
  intros Hw d opacity.
  pose proof (covered_check labelEnds labelEnds_covered (animateFrom' props)
                (isV3 (theme props)) tw Hw) as Hcheck.
  change opacity
    with (label_opacity
            (label_style
               (plainRender (animateFrom' props) (isV3 (theme props))
                  (ofZ tw)))).
  subst d. clear opacity.
  destruct (animateFrom' props) eqn:Ha.
  - split; [|split].
    + unfold labelEnds in Hcheck.
      do 3 (apply andb_prop in Hcheck; destruct Hcheck as [Hcheck _]).
      apply andb_prop in Hcheck. destruct Hcheck as [_ Hatd].
      now apply hasValue_true.
    + intros x Hx. now apply label_flat_left.
    + unfold labelEnds in Hcheck.
      apply andb_prop in Hcheck. destruct Hcheck as [Hcheck _].
      apply andb_prop in Hcheck. destruct Hcheck as [_ Hat0].
      now apply hasValue_true.
  - split; [|split].
    + unfold labelEnds in Hcheck.
      do 3 (apply andb_prop in Hcheck; destruct Hcheck as [Hcheck _]).
      apply andb_prop in Hcheck. destruct Hcheck as [_ Hatd].
      now apply hasValue_true.
    + intros x Hx. now apply label_flat_right.
    + unfold labelEnds in Hcheck.
      apply andb_prop in Hcheck. destruct Hcheck as [Hcheck _].
      apply andb_prop in Hcheck. destruct Hcheck as [_ Hat0].
      now apply hasValue_true.
Qed.

(** C7, amended: with the numbers as the code computes them, for every
    whole text width from -12 to 100000, under both themes and in both
    directions: the radius of the icon circle's shadow is exactly
    [borderRadius] at [animFAB = 0]; at [animFAB = distance] it is within
    [2^-47] of [SIZE / (extendedWidth / SIZE)], and exactly that when
    animating from the right; [SIZE / (extendedWidth / SIZE)] is within
    [2^-47] of [56^2 / extendedWidth]; the opacity is exactly 1 at
    [animFAB = 0] and exactly 0 at [animFAB = distance]. *)
Theorem circle_shadow_at_ends
  (host : Host) (props : Props StyleProp) (tw : Z) (th : float) :
  widthCovered tw ->
  let v3 := isV3 (theme props) in
  let d := distance (animateFrom' props) (ofZ tw) v3 in
  let styles :=
    render host props {| textWidth := ofZ tw; textHeight := th |} in
  let w := extendedWidth (ofZ tw) v3 in
  interpolation (circleShadow_borderRadius styles) 0
  = Some (borderRadius v3)
  /\ (exists r : float,
         interpolation (circleShadow_borderRadius styles) d = Some r
         /\ close r (SIZE / (w / SIZE)) = true
         /\ (animateFrom' props = fromRight -> r = SIZE / (w / SIZE)))
  /\ close (SIZE / (w / SIZE)) (56 * 56 / w) = true
  /\ interpolation (circleShadow_opacity styles) 0 = Some 1
  /\ interpolation (circleShadow_opacity styles) d = Some 0.
Proof.
  intros Hw v3 d styles w.
  pose proof (covered_check circleEnds circleEnds_covered (animateFrom' props)
                (isV3 (theme props)) tw Hw) as Hcheck.
  change (circleShadow_borderRadius styles)
    with (circleShadow_borderRadius
            (plainRender (animateFrom' props) (isV3 (theme props))
               (ofZ tw))).
  change (circleShadow_opacity styles)
    with (circleShadow_opacity
            (plainRender (animateFrom' props) (isV3 (theme props))
               (ofZ tw))).
  subst d w v3. clear styles.
  unfold circleEnds in Hcheck.
  apply andb_prop in Hcheck. destruct Hcheck as [Hcheck Hopd].
  apply andb_prop in Hcheck. destruct Hcheck as [Hcheck Hop0].
  apply andb_prop in Hcheck. destruct Hcheck as [Hcheck Hsquare].
  apply andb_prop in Hcheck. destruct Hcheck as [Hr0 Hrd].
  split; [now apply hasValue_true|]. split.
  - destruct (interpolation _ (distance _ _ _)) as [r|]; [|discriminate].
    apply andb_prop in Hrd. destruct Hrd as [Hclose Hexact].
    exists r. split; [reflexivity|]. split; [exact Hclose|].
    intro Hright. rewrite Hright in Hexact.
    cbn [isAnimatedFromRight animateFrom_eqb] in Hexact.
    now apply Leibniz.eqb_spec.
  - split; [exact Hsquare|]. split; now apply hasValue_true.
Qed.

End WithUtils.

(** C7 as stated fails on the numbers the code computes. Animating from
    the left under a v3 theme with a text 321 wide, the radius at
    [animFAB = distance] is 7.979643765903308, not
    [SIZE / (extendedWidth / SIZE)], which is 7.979643765903307; and with
    an empty text [SIZE / (extendedWidth / SIZE)] is 43.55555555555555
    where [56^2 / extendedWidth] is 43.55555555555556. *)
Lemma circle_shadow_radius_inexact :
  interpolation
    (circleShadow_borderRadius (plainRender fromLeft true (ofZ 321)))
    (distance fromLeft (ofZ 321) true)
  <> Some (SIZE / (extendedWidth (ofZ 321) true / SIZE))
  /\ SIZE / (extendedWidth (ofZ 0) true / SIZE)
     <> 56 * 56 / extendedWidth (ofZ 0) true.
Proof.
  split.
  - intro H.
    assert (Hv : hasValue
                   (circleShadow_borderRadius
                      (plainRender fromLeft true (ofZ 321)))
                   (distance fromLeft (ofZ 321) true)
                   (SIZE / (extendedWidth (ofZ 321) true / SIZE)) = true).
    { unfold hasValue. rewrite H. now apply Leibniz.eqb_spec. }
    vm_compute in Hv. discriminate Hv.
  - intro H. apply Leibniz.eqb_spec in H. vm_compute in H. discriminate H.
Qed.

(** The rounded numbers of the two samples. *)
Example rounded_samples :
  0.7 * distance fromRight (ofZ 74) true = -62.99999999999999
  /\ interpolation
       (label_opacity (label_style (plainRender fromRight true (ofZ 74))))
       (-63)
     = Some 0x1p-52
  /\ interpolation
       (circleShadow_borderRadius (plainRender fromLeft true (ofZ 321)))
       (distance fromLeft (ofZ 321) true)
     = Some 7.979643765903308
  /\ SIZE / (extendedWidth (ofZ 321) true / SIZE) = 7.979643765903307.
Proof. repeat split; vm_compute; reflexivity. Qed.

Lemma label_opacity_at_ends_witness :
  interpolation
    (label_opacity (label_style (plainRender fromRight true (ofZ 100))))
    (distance fromRight (ofZ 100) true)
  = Some 1
  /\ interpolation
       (label_opacity (label_style (plainRender fromRight true (ofZ 100))))
       (0.7 * distance fromRight (ofZ 100) true)
     = Some 0.
Proof.
  assert (Hw : widthCovered 100) by (unfold widthCovered; lia).
  pose proof (label_opacity_at_ends (fun _ _ _ => tt)
                (fun _ _ _ _ _ => ("#6200ee"%string, "#ffffff"%string))
                (fun c _ => c)
                {| Platform_OS := ios; I18nManager_isRTL := false |}
                (plainProps fromRight true) 100 0 Hw) as (Hd & Hflat & _).
  split; [exact Hd|]. apply Hflat. vm_compute. reflexivity.
Defined.

Lemma circle_shadow_at_ends_witness :
  interpolation
    (circleShadow_borderRadius (plainRender fromLeft true (ofZ 321))) 0
  = Some (borderRadius true)
  /\ interpolation
       (circleShadow_opacity (plainRender fromLeft true (ofZ 321)))
       (distance fromLeft (ofZ 321) true)
     = Some 0.
Proof.
  assert (Hw : widthCovered 321) by (unfold widthCovered; lia).
  pose proof (circle_shadow_at_ends (fun _ _ _ => tt)
                (fun _ _ _ _ _ => ("#6200ee"%string, "#ffffff"%string))
                (fun c _ => c)
                {| Platform_OS := ios; I18nManager_isRTL := false |}
                (plainProps fromLeft true) 321 0 Hw)
    as (Hr0 & _ & _ & _ & Hod).
  split; [exact Hr0 | exact Hod].
Defined.

End DoubleStyles.
